(** * Support copilot: retrieval-augmented answer pipeline

    A shallow embedding of the Python sources

    - [pipeline/rag.py]        (class [RAGPipeline]),
    - [pipeline/classifier.py] ([classify_ticket]),
    - [scripts/vector_store_script.py] ([create_documents_from_data]),
    - [app.py]                 ([strip_sources_from_answer]),

    together with the properties of the specification that concern them.

    Conventions of the embedding.

    - A Python [str] is a [string]: the sequence of the bytes of its UTF-8
      encoding.  Substring search, slicing at a found index and the
      code-point order of two strings are the same on code points and on
      UTF-8 bytes.  White space is the white space of [str.isspace], all of
      it, in its UTF-8 form.  [str.lower] depends on the case tables of
      Unicode: where the code orders chunks by it, it is the field
      [str_lower] of the libraries, about which nothing is assumed; [lower]
      is its ASCII part, exact on ASCII text, and stands for it in the search
      for a marker and in the keyword test.
    - A call that can raise returns an [Outcome]; code that touches the
      disk, the vector store or the generative model runs in the monad [M]
      over a [World] that holds the two paths the code looks at and the log
      of the calls made to the external libraries.
    - The external libraries (text splitter, embedding model, Chroma, the
      generative model) are variables of the sections that use them. *)

From Stdlib Require Import Ascii String NArith Lia.
From stdpp Require Import gmap strings list sorting.

Local Open Scope string_scope.
Local Open Scope list_scope.

(** ** Python strings *)

Module Py.

Definition nl : string := String (ascii_of_nat 10) EmptyString.

(** The double quote character. *)
Definition dq : string := String (ascii_of_nat 34) EmptyString.

(** [str.lower] on ASCII text: the letters A to Z become a to z, every
    other byte is kept. *)
Definition lower_ascii (c : ascii) : ascii :=
  let n := N_of_ascii c in
  if ((65 <=? n) && (n <=? 90))%N then ascii_of_N (n + 32) else c.

Fixpoint lower (s : string) : string :=
  match s with
  | EmptyString => EmptyString
  | String c s' => String (lower_ascii c) (lower s')
  end.

(** [str.isascii] *)
Fixpoint isascii (s : string) : bool :=
  match s with
  | EmptyString => true
  | String c s' => (N_of_ascii c <? 128)%N && isascii s'
  end.

(** The white space of [str.isspace], [str.strip] and [str.rstrip]: the
    code points U+0009 to U+000D, U+001C to U+0020, U+0085, U+00A0, U+1680,
    U+2000 to U+200A, U+2028, U+2029, U+202F, U+205F and U+3000.
    [space_len s] is the number of bytes of the white space character with
    which [s] begins, and 0 when [s] begins with none. *)
Definition space_len (s : string) : nat :=
  match s with
  | EmptyString => 0
  | String c s1 =>
      let n := N_of_ascii c in
      if (((9 <=? n) && (n <=? 13)) || ((28 <=? n) && (n <=? 32)))%N then 1
      else
        match s1 with
        | EmptyString => 0
        | String c1 s2 =>
            let n1 := N_of_ascii c1 in
            if ((n =? 194) && ((n1 =? 133) || (n1 =? 160)))%N then 2
            else
              match s2 with
              | EmptyString => 0
              | String c2 _ =>
                  let n2 := N_of_ascii c2 in
                  if ((n =? 225) && (n1 =? 154) && (n2 =? 128))%N then 3
                  else if ((n =? 226) && (n1 =? 128)
                           && (((128 <=? n2) && (n2 <=? 138))
                               || (n2 =? 168) || (n2 =? 169) || (n2 =? 175)))%N then 3
                  else if ((n =? 226) && (n1 =? 129) && (n2 =? 159))%N then 3
                  else if ((n =? 227) && (n1 =? 128) && (n2 =? 128))%N then 3
                  else 0
              end
        end
  end.

(** [s.isspace()] for a string of one character. *)
Definition isspace (s : string) : bool :=
  match s with
  | EmptyString => false
  | _ => Nat.eqb (space_len s) (String.length s)
  end.

(** [bool(s)] for a string. *)
Definition truthy (s : string) : bool :=
  match s with EmptyString => false | _ => true end.

(** [a or b] on strings. *)
Definition or_else (a b : string) : string := if truthy a then a else b.

(** [s.lstrip()]; [skip] counts the bytes of a white space character
    that are still to be dropped. *)
Fixpoint lstrip_go (skip : nat) (s : string) : string :=
  match s with
  | EmptyString => EmptyString
  | String c s' =>
      match skip with
      | S k => lstrip_go k s'
      | O =>
          match space_len s with
          | S k => lstrip_go k s'
          | O => s
          end
      end
  end.

Definition lstrip (s : string) : string := lstrip_go 0 s.

(** [s.rstrip()]: what is left of the tail, with the character before it,
    is dropped when it is one white space character. *)
Fixpoint rstrip (s : string) : string :=
  match s with
  | EmptyString => EmptyString
  | String c s' =>
      let r := rstrip s' in
      if isspace (String c r) then EmptyString else String c r
  end.

Definition strip (s : string) : string := lstrip (rstrip s).

(** [s.find(sub)]: the least index at which [sub] occurs in [s];
    [None] stands for Python's [-1]. *)
Fixpoint find (sub s : string) : option nat :=
  if String.prefix sub s then Some 0
  else match s with
       | EmptyString => None
       | String _ s' => S <$> find sub s'
       end.

(** [sub in s]. *)
Definition contains (sub s : string) : bool :=
  match find sub s with Some _ => true | None => false end.

(** [s[:n]] for [0 <= n]. *)
Fixpoint slice_to (n : nat) (s : string) : string :=
  match n, s with
  | S n', String c s' => String c (slice_to n' s')
  | _, _ => EmptyString
  end.

(** [s[n:]] for [0 <= n]. *)
Fixpoint slice_from (n : nat) (s : string) : string :=
  match n, s with
  | S n', String _ s' => slice_from n' s'
  | _, _ => s
  end.

(** [s.replace(old, new)] for a non-empty [old]: occurrences are replaced
    from the left and do not overlap.  [skip] counts the characters of a
    replaced occurrence that are still to be dropped. *)
Fixpoint replace_go (old new : string) (skip : nat) (s : string) : string :=
  match s with
  | EmptyString => EmptyString
  | String c s' =>
      match skip with
      | S k => replace_go old new k s'
      | O =>
          if String.prefix old s
          then new +:+ replace_go old new (String.length old - 1) s'
          else String c (replace_go old new 0 s')
      end
  end.

Definition replace (old new s : string) : string := replace_go old new 0 s.

(** [sep.join(parts)]. *)
Definition join (sep : string) (parts : list string) : string :=
  String.concat sep parts.

End Py.

(** ** Exceptions and results of calls *)

(** An exception: its class and the text [str(e)]. *)
Record Exn := mkExn { exn_class : string; exn_str : string }.

Inductive Outcome (A : Type) : Type :=
| Returns (a : A)
| Raises (e : Exn).
Arguments Returns {A} a.
Arguments Raises {A} e.

(** ** Documents, the disk and the external libraries *)

(** LangChain's [Document]: the text and the metadata dictionary. *)
Record Document := mkDocument {
  page_content : string;
  metadata : gmap string string
}.

(** One record of the knowledge base file: a JSON object whose fields are
    strings ([url] and [content]; either may be absent). *)
Abbreviation KBItem := (gmap string string).

(** What the code can see at [VECTOR_STORE_PATH]. *)
Inductive DirState :=
| NoEntry
| RegularFile
| Directory (entries : list string).

(** What the code can see at [KNOWLEDGE_BASE_PATH]: no regular file; a file
    that [open] or [json.load] fails on; a file holding a list of records. *)
Inductive KBFile :=
| KBMissing
| KBUnreadable
| KBData (kb_data : list KBItem).

Record FS := mkFS { store_path : DirState; kb_path : KBFile }.

(** Calls to the external libraries, in the order they are made. *)
Inductive Event :=
| EvMakedirs (path : string)
| EvEmbeddings (model_name : string)
| EvFromDocuments (chunks : list Document) (persist_directory : string)
| EvChroma (persist_directory : string)
| EvRetrieve (k : nat) (question : string)
| EvGenerate (model_name : string) (prompt : string).

Record World := mkWorld { fs : FS; calls : list Event }.

(** The response object of the generative model; reading [response.text]
    can itself raise. *)
Record Response := mkResponse { text : Outcome string }.

(** The vector store object that [Chroma(...)] returns. *)
Record Chroma := mkChroma { persist_directory : string }.

Record Libs := mkLibs {
  (** [RecursiveCharacterTextSplitter(chunk_size, chunk_overlap).split_documents] *)
  split_documents : nat -> nat -> list Document -> list Document;
  (** [HuggingFaceEmbeddings(model_name=...)] *)
  HuggingFaceEmbeddings : string -> World -> Outcome unit;
  (** [Chroma.from_documents(chunks, embeddings, persist_directory)]:
      what it leaves at the path, and whether it raised *)
  Chroma_from_documents : list Document -> DirState -> Outcome unit * DirState;
  (** [Chroma(persist_directory, embedding_function)] *)
  Chroma_open : DirState -> Outcome unit * DirState;
  (** [vector_store.as_retriever(search_kwargs={"k": k}).invoke(question)] *)
  retriever_invoke : World -> nat -> string -> Outcome (list Document);
  (** [GenerativeModel(name).generate_content(prompt)] *)
  generate_content : World -> string -> string -> Outcome Response;
  (** [str.lower] of the Python runtime *)
  str_lower : string -> string
}.

(** ** The monad of the pipeline: state and exceptions *)

Definition M (A : Type) : Type := World -> Outcome A * World.

Definition ret {A} (a : A) : M A := fun w => (Returns a, w).

Definition raise {A} (e : Exn) : M A := fun w => (Raises e, w).

Definition bind {A B} (m : M A) (k : A -> M B) : M B :=
  fun w => match m w with
           | (Returns a, w') => k a w'
           | (Raises e, w') => (Raises e, w')
           end.

(** [try: m except Exception as e: h e] *)
Definition try_except {A} (m : M A) (h : Exn -> M A) : M A :=
  fun w => match m w with
           | (Returns a, w') => (Returns a, w')
           | (Raises e, w') => h e w'
           end.

Definition lift {A} (o : Outcome A) : M A := fun w => (o, w).

Definition get_world : M World := fun w => (Returns w, w).

Definition log (ev : Event) : M unit :=
  fun w => (Returns tt, mkWorld (fs w) (calls w ++ [ev])).

Definition set_store_path (d : DirState) : M unit :=
  fun w => (Returns tt, mkWorld (mkFS d (kb_path (fs w))) (calls w)).

Notation "'let*' x ':=' m 'in' k" := (bind m (fun x => k))
  (at level 10, x name, m at level 100, k at level 200, only parsing).

(** ** pipeline/prompts.py *)

Definition RAG_PROMPT_TEMPLATE_format (context question : string) : string :=
"
You are a helpful and friendly AI assistant for 'Atlan'. Answer the user's question based ONLY on the Context.

Important constraints:
1. Use only the provided Context; do not rely on prior knowledge. If the Context is insufficient, say you don't have enough information.
2. Prefer authoritative Atlan sources (docs.atlan.com, developer.atlan.com) when present in the Context.
3. Write the answer in a clean, concise format:
   - Start with a single-sentence summary.
   - Then provide 3-6 bullet points with specific guidance or steps.
4. Do NOT include a Sources section inside the answer text. Sources will be rendered separately by the UI.

---
Context:
" +:+ context +:+ "

---
Question:
" +:+ question +:+ "

---
Final Answer (summary + bullet points, no sources inline):
".

Definition CLASSIFICATION_PROMPT_format (ticket_text : string) : string :=
"
You are an expert AI assistant for 'Atlan', a data catalog and governance company.
Your task is to analyze and classify customer support tickets based on their content.

Please analyze the following ticket and provide the classification in a structured JSON format.

**Classification Schema:**
1.  **topic_tags**: A list of relevant tags. Choose one or more from this specific list:
    [" +:+ Py.dq +:+ "How-to" +:+ Py.dq +:+ ", " +:+ Py.dq +:+ "Product" +:+ Py.dq +:+ ", " +:+ Py.dq +:+ "Connector" +:+ Py.dq +:+ ", " +:+ Py.dq +:+ "Lineage" +:+ Py.dq +:+ ", " +:+ Py.dq +:+ "API/SDK" +:+ Py.dq +:+ ", " +:+ Py.dq +:+ "SSO" +:+ Py.dq +:+ ", " +:+ Py.dq +:+ "Glossary" +:+ Py.dq +:+ ", " +:+ Py.dq +:+ "Best practices" +:+ Py.dq +:+ ", " +:+ Py.dq +:+ "Sensitive data" +:+ Py.dq +:+ ", " +:+ Py.dq +:+ "Access Control" +:+ Py.dq +:+ ", " +:+ Py.dq +:+ "Automation" +:+ Py.dq +:+ ", " +:+ Py.dq +:+ "Troubleshooting" +:+ Py.dq +:+ "]
    
    **Note:** Topics " +:+ Py.dq +:+ "How-to" +:+ Py.dq +:+ ", " +:+ Py.dq +:+ "Product" +:+ Py.dq +:+ ", " +:+ Py.dq +:+ "Best practices" +:+ Py.dq +:+ ", " +:+ Py.dq +:+ "API/SDK" +:+ Py.dq +:+ ", and " +:+ Py.dq +:+ "SSO" +:+ Py.dq +:+ " will receive direct AI-generated answers, while others will be routed to specialized teams.
2.  **sentiment**: The user's sentiment. Choose one from:
    [" +:+ Py.dq +:+ "Frustrated" +:+ Py.dq +:+ ", " +:+ Py.dq +:+ "Curious" +:+ Py.dq +:+ ", " +:+ Py.dq +:+ "Angry" +:+ Py.dq +:+ ", " +:+ Py.dq +:+ "Neutral" +:+ Py.dq +:+ ", " +:+ Py.dq +:+ "Positive" +:+ Py.dq +:+ "]
3.  **priority**: The urgency and impact of the issue. Choose one from:
    [" +:+ Py.dq +:+ "P0 (High)" +:+ Py.dq +:+ ", " +:+ Py.dq +:+ "P1 (Medium)" +:+ Py.dq +:+ ", " +:+ Py.dq +:+ "P2 (Low)" +:+ Py.dq +:+ "]

**Rules:**
-   Analyze the ticket content carefully to understand the user's problem and tone.
-   Assign priority based on keywords like " +:+ Py.dq +:+ "urgent," +:+ Py.dq +:+ " " +:+ Py.dq +:+ "blocked," +:+ Py.dq +:+ " " +:+ Py.dq +:+ "critical failure," +:+ Py.dq +:+ " or the number of users impacted. A simple question is likely P2, while a team being blocked is P1 or P0.
-   Your response MUST be only the JSON object, with no additional text, explanations, or markdown formatting.

**Example JSON Output:**
{
    " +:+ Py.dq +:+ "topic_tags" +:+ Py.dq +:+ ": [" +:+ Py.dq +:+ "Connector" +:+ Py.dq +:+ ", " +:+ Py.dq +:+ "Lineage" +:+ Py.dq +:+ "],
    " +:+ Py.dq +:+ "sentiment" +:+ Py.dq +:+ ": " +:+ Py.dq +:+ "Frustrated" +:+ Py.dq +:+ ",
    " +:+ Py.dq +:+ "priority" +:+ Py.dq +:+ ": " +:+ Py.dq +:+ "P0 (High)" +:+ Py.dq +:+ "
}

---
**Ticket to Classify:**
```" +:+ ticket_text +:+ "```

**JSON Classification:**
".

(** ** Python's [sorted(l, key=...)]

    [sorted] is a stable sort that compares the keys with [<] only.  It is
    embedded as the stable insertion sort; [sorted_unique] below shows that
    every stable sorting algorithm computes the same list. *)

Section Sorted.
Context {A K : Type} (ltb : K -> K -> bool) (key : A -> K).

Fixpoint insert_by (x : A) (l : list A) : list A :=
  match l with
  | [] => [x]
  | y :: r => if ltb (key y) (key x) then y :: insert_by x r else x :: y :: r
  end.

Definition sorted (l : list A) : list A := foldr insert_by [] l.

(** [x] may stand before [y]: the key of [y] is not below the key of [x]. *)
Definition key_le (x y : A) : Prop := ltb (key y) (key x) = false.
End Sorted.

(** [<] on the tuples [(tier, src)] that [source_key] returns. *)
Definition key_ltb (a b : nat * string) : bool :=
  (a.1 <? b.1)%nat || ((a.1 =? b.1)%nat && String.ltb a.2 b.2).

(** ** pipeline/rag.py *)

(** The dictionary that [get_rag_answer] returns: either the keys [answer],
    [sources] and (when the model was called) [context_used], or the key
    [error]. *)
Inductive RAGResult :=
| RAGAnswer (answer : string) (sources : list string) (context_used : option nat)
| RAGError (error : string).

Definition EMBEDDING_MODEL_NAME : string := "all-MiniLM-L6-v2".

Definition NO_EVIDENCE_ANSWER : string :=
  "I do not have enough information to answer this question based on the available knowledge base. Please try rephrasing your question or contact our support team for assistance.".

(** [source_key], the sort key of a retrieved chunk (local to
    [get_rag_answer]); [str_lower L] is [str.lower]. *)
Definition source_key (L : Libs) (doc : Document) : nat * string :=
  let src := str_lower L (Py.or_else (default EmptyString (metadata doc !! "source")) EmptyString) in
  if Py.contains "docs.atlan.com" src || Py.contains "developer.atlan.com" src
  then (0, src)
  else (1, src).

(** Step 4 of [get_rag_answer]: the first loop over [sorted_docs]. *)
Definition collect_sources (sorted_docs : list Document) : list string :=
  foldl (fun sources doc =>
           let source_url := default "N/A" (metadata doc !! "source") in
           if bool_decide (source_url ≠ "N/A") && bool_decide (source_url ∉ sources)
           then sources ++ [source_url]
           else sources)
        [] sorted_docs.

(** Step 5: the second loop, over [sources]. *)
Definition unique_sources (sources : list string) : list string :=
  foldl (fun unique s =>
           if Py.truthy s && bool_decide (s ∉ unique)
           then unique ++ [s]
           else unique)
        [] sources.

Record RAGPipeline := mkRAGPipeline {
  vector_store : option Chroma;
  llm : string
}.

Section Rag.
Variable L : Libs.
(** The configured path of the store; what lies there, and at
    [KNOWLEDGE_BASE_PATH], is read from the [FS] of the world. *)
Variable VECTOR_STORE_PATH : string.

(** [os.makedirs(VECTOR_STORE_PATH, exist_ok=True)]; the text of the
    exception is the one that Python gives for a path that needs no
    escaping. *)
Definition os_makedirs : M unit :=
  let* _ := log (EvMakedirs VECTOR_STORE_PATH) in
  let* w := get_world in
  match store_path (fs w) with
  | NoEntry => set_store_path (Directory [])
  | Directory _ => ret tt
  | RegularFile =>
      raise (mkExn "FileExistsError"
                   ("[Errno 17] File exists: '" +:+ VECTOR_STORE_PATH +:+ "'"))
  end.

Definition new_embeddings : M unit :=
  let* _ := log (EvEmbeddings EMBEDDING_MODEL_NAME) in
  let* w := get_world in
  lift (HuggingFaceEmbeddings L EMBEDDING_MODEL_NAME w).

Definition from_documents (chunks : list Document) : M unit :=
  let* _ := log (EvFromDocuments chunks VECTOR_STORE_PATH) in
  let* w := get_world in
  let '(r, d) := Chroma_from_documents L chunks (store_path (fs w)) in
  let* _ := set_store_path d in
  lift r.

Definition new_chroma : M Chroma :=
  let* _ := log (EvChroma VECTOR_STORE_PATH) in
  let* w := get_world in
  let '(r, d) := Chroma_open L (store_path (fs w)) in
  let* _ := set_store_path d in
  let* _ := lift r in
  ret (mkChroma VECTOR_STORE_PATH).

(** The list comprehension of [_ensure_local_vector_store]. *)
Definition kb_documents (kb_data : list KBItem) : list Document :=
  omap (fun item : KBItem =>
          if Py.truthy (default EmptyString (item !! "content"))
          then Some (mkDocument (default EmptyString (item !! "content"))
                                {[ "source" := default EmptyString (item !! "url") ]})
          else None)
       kb_data.

Definition _ensure_local_vector_store : M unit :=
  let* w := get_world in
  match store_path (fs w) with
  | Directory (_ :: _) => ret tt
  | _ =>
      match kb_path (fs w) with
      | KBMissing => ret tt
      | kb =>
          let kb_data := match kb with KBData d => d | _ => [] end in
          match kb_data with
          | [] => ret tt
          | _ =>
              let documents := kb_documents kb_data in
              match documents with
              | [] => ret tt
              | _ =>
                  let chunks := split_documents L 1000 100 documents in
                  match chunks with
                  | [] => ret tt
                  | _ =>
                      let* _ := os_makedirs in
                      let* _ := new_embeddings in
                      from_documents chunks
                  end
              end
          end
      end
  end.

Definition _load_vector_store : M (option Chroma) :=
  let* _ := _ensure_local_vector_store in
  let* _ := new_embeddings in
  try_except (let* vs := new_chroma in ret (Some vs))
             (fun _ => ret None).

(** [RAGPipeline.__init__] *)
Definition RAGPipeline_init : M RAGPipeline :=
  let* vs := _load_vector_store in
  ret (mkRAGPipeline vs "gemini-2.5-flash").

Definition invoke_retriever (k : nat) (question : string) : M (list Document) :=
  let* _ := log (EvRetrieve k question) in
  let* w := get_world in
  lift (retriever_invoke L w k question).

Definition llm_generate_content (self : RAGPipeline) (prompt : string) : M Response :=
  let* _ := log (EvGenerate (llm self) prompt) in
  let* w := get_world in
  lift (generate_content L w (llm self) prompt).

Definition get_rag_answer (self : RAGPipeline) (question : string) : M RAGResult :=
  match vector_store self with
  | None => ret (RAGError "Vector store is not available.")
  | Some _ =>
      let* relevant_docs := invoke_retriever 8 question in
      match relevant_docs with
      | [] => ret (RAGAnswer NO_EVIDENCE_ANSWER [] None)
      | _ =>
          let sorted_docs := sorted key_ltb (source_key L) relevant_docs in
          let context_str :=
            Py.join (Py.nl +:+ Py.nl) (page_content <$> sorted_docs) in
          let prompt := RAG_PROMPT_TEMPLATE_format context_str question in
          try_except
            (let* response := llm_generate_content self prompt in
             let sources := collect_sources sorted_docs in
             let* t := lift (text response) in
             let answer_text := Py.or_else t EmptyString in
             ret (RAGAnswer answer_text
                            (take 5 (unique_sources sources))
                            (Some (length relevant_docs))))
            (fun e =>
               ret (RAGError ("Failed to generate an answer from the LLM: "
                              +:+ exn_str e)))
      end
  end.

(** [RAGPipeline.query] *)
Definition query (self : RAGPipeline) (question context : string) : M string :=
  try_except
    (let enhanced_question :=
       if Py.truthy context
       then question +:+ Py.nl +:+ Py.nl +:+ "Additional context: " +:+ context
       else question in
     let* result := get_rag_answer self enhanced_question in
     match result with
     | RAGError error =>
         ret ("I encountered an issue while processing your request: " +:+ error)
     | RAGAnswer answer _ _ => ret answer
     end)
    (fun e =>
       ret ("I'm sorry, I encountered an error while processing your question: "
            +:+ exn_str e)).
End Rag.

(** ** scripts/vector_store_script.py *)

(** [item[k]] on a record of the knowledge base. *)
Definition getitem (item : KBItem) (k : string) : Outcome string :=
  match item !! k with
  | Some v => Returns v
  | None => Raises (mkExn "KeyError" ("'" +:+ k +:+ "'"))
  end.

(** [create_documents_from_data]: the comprehension tests
    [item.get('content')] and then subscripts [item['content']] and
    [item['url']]; a record that passes the test and has no [url] raises. *)
Fixpoint create_documents_from_data (data : list KBItem) : Outcome (list Document) :=
  match data with
  | [] => Returns []
  | item :: rest =>
      if Py.truthy (default EmptyString (item !! "content")) then
        match getitem item "content" with
        | Raises e => Raises e
        | Returns content =>
            match getitem item "url" with
            | Raises e => Raises e
            | Returns url =>
                match create_documents_from_data rest with
                | Raises e => Raises e
                | Returns documents =>
                    Returns (mkDocument content {[ "source" := url ]} :: documents)
                end
            end
        end
      else create_documents_from_data rest
  end.

(** ** app.py *)

(** The book emoji U+1F4DA, as its UTF-8 bytes. *)
Definition books_emoji : string :=
  String (ascii_of_nat 240) (String (ascii_of_nat 159)
    (String (ascii_of_nat 147) (String (ascii_of_nat 154) EmptyString))).

(** The list [markers] of [strip_sources_from_answer]. *)
Definition markers : list string :=
  [ Py.nl +:+ "Sources:";
    Py.nl +:+ "Source:";
    Py.nl +:+ "**Sources:**";
    Py.nl +:+ "**Source:**";
    Py.nl +:+ books_emoji +:+ " Sources:" ].

(** The [for m in markers] loop: the index found for the first marker, in
    the order of the list, that occurs at all.  The index is that of
    [answer_text.lower().find(m.lower())] for an answer in ASCII, where the
    lower-cased answer has the letters of the answer at the same places. *)
Fixpoint cut_index (ms : list string) (answer_text : string) : option nat :=
  match ms with
  | [] => None
  | m :: ms' =>
      match Py.find (Py.lower m) (Py.lower answer_text) with
      | Some idx => Some idx
      | None => cut_index ms' answer_text
      end
  end.

Definition strip_sources_from_answer (answer_text : string) : string :=
  if negb (Py.truthy answer_text) then EmptyString
  else match cut_index markers answer_text with
       | Some cut_idx => Py.rstrip (Py.slice_to cut_idx answer_text)
       | None => answer_text
       end.

(** ** pipeline/classifier.py *)

(** A value that [json.loads] returns.  A number is kept as its literal;
    an object as the list of its members. *)
#[local] Unset Elimination Schemes.
Inductive JSON :=
| JNull
| JBool (b : bool)
| JNum (literal : string)
| JStr (s : string)
| JArr (items : list JSON)
| JObj (members : list (string * JSON)).
#[local] Set Elimination Schemes.

(** The dictionary that [classify_ticket] returns: the parsed classification,
    or the key [error] with, for a decoding failure, [raw_response]. *)
Inductive ClassifyResult :=
| Classification (classification : JSON)
| ClassifyError (error : string) (raw_response : option string).

Definition _clean_llm_response (response_text : string) : string :=
  let cleaned_text :=
    Py.replace "```" EmptyString
      (Py.replace "```json" EmptyString (Py.strip response_text)) in
  Py.strip cleaned_text.

Definition required_keys : list string := ["topic_tags"; "sentiment"; "priority"].

Definition is_JStr (k : string) (v : JSON) : bool :=
  match v with JStr s => bool_decide (s = k) | _ => false end.

Section Classifier.
Variable L : Libs.
(** [json.loads] *)
Variable json_loads : string -> Outcome JSON.
(** [str(d.keys())] for a dictionary with the given keys. *)
Variable str_dict_keys : list string -> string.
(** The text of the [TypeError] of [key in v] for a [v] that is not a
    container. *)
Variable not_iterable : JSON -> string.

(** [key in classification] *)
Definition key_in (key : string) (classification : JSON) : Outcome bool :=
  match classification with
  | JObj members => Returns (bool_decide (key ∈ members.*1))
  | JArr items => Returns (existsb (is_JStr key) items)
  | JStr s => Returns (Py.contains key s)
  | JNull | JBool _ | JNum _ =>
      Raises (mkExn "TypeError" (not_iterable classification))
  end.

(** [all(key in classification for key in keys)] *)
Fixpoint all_keys_in (keys : list string) (classification : JSON) : Outcome bool :=
  match keys with
  | [] => Returns true
  | key :: keys' =>
      match key_in key classification with
      | Raises e => Raises e
      | Returns false => Returns false
      | Returns true => all_keys_in keys' classification
      end
  end.

(** The exception of the validation step: the [ValueError] of the code,
    or, as [classification.keys()] is evaluated for its text, the
    [AttributeError] of a list or a string. *)
Definition missing_keys_error (classification : JSON) : Exn :=
  match classification with
  | JObj members =>
      mkExn "ValueError"
            ("LLM response is missing one or more required keys. Got: "
             +:+ str_dict_keys members.*1)
  | JArr _ => mkExn "AttributeError" "'list' object has no attribute 'keys'"
  | _ => mkExn "AttributeError" "'str' object has no attribute 'keys'"
  end.

(** The two [except] clauses; [response] is the response object when the
    name is bound at the time of the exception. *)
Definition classify_except (response : option Response) (e : Exn) : M ClassifyResult :=
  if bool_decide (exn_class e = "JSONDecodeError") then
    let* raw_response :=
      match response with
      | Some r => lift (text r)
      | None => ret "N/A"
      end in
    ret (ClassifyError "Failed to decode JSON from LLM response." (Some raw_response))
  else
    ret (ClassifyError ("An unexpected error occurred: " +:+ exn_str e) None).

Definition classify_ticket (ticket_text : string) : M ClassifyResult :=
  if negb (Py.truthy ticket_text) then
    ret (ClassifyError "Input ticket text cannot be empty." None)
  else
    let prompt := CLASSIFICATION_PROMPT_format ticket_text in
    fun w0 =>
      let w := mkWorld (fs w0) (calls w0 ++ [EvGenerate "gemini-2.5-flash" prompt]) in
      match generate_content L w "gemini-2.5-flash" prompt with
      | Raises e => classify_except None e w
      | Returns response =>
          try_except
            (let* response_text := lift (text response) in
             let cleaned_response := _clean_llm_response response_text in
             let* classification := lift (json_loads cleaned_response) in
             let* ok := lift (all_keys_in required_keys classification) in
             if ok then ret (Classification classification)
             else raise (missing_keys_error classification))
            (classify_except (Some response)) w
      end.
End Classifier.

(** ** The specification's words, and fixtures

    Definitions that follow the sentences of the specification, to be
    compared with the code above, and small concrete worlds on which the
    code is run. *)

(** The [source] entry of a chunk as the citation loop reads it
    ([doc.metadata.get('source', 'N/A')]). *)
Definition source_of (doc : Document) : string :=
  default "N/A" (metadata doc !! "source").

(** The [source] entry of a chunk as the sort key reads it. *)
Definition url_of (doc : Document) : string :=
  default EmptyString (metadata doc !! "source").

(** The tier and the string on which the code orders a chunk. *)
Definition tier (L : Libs) (doc : Document) : nat := (source_key L doc).1.
Definition lowered_url (L : Libs) (doc : Document) : string := (source_key L doc).2.

(** Tier of a chunk in the specification's words: 0 when the source URL
    contains one of the authoritative-domain substrings, 1 otherwise. *)
Definition tier_as_stated (doc : Document) : nat :=
  if Py.contains "docs.atlan.com" (url_of doc)
     || Py.contains "developer.atlan.com" (url_of doc)
  then 0 else 1.

(** The order of the specification's words: tier 0 before tier 1, and
    within a tier the source URLs in lexicographic order. *)
Definition prioritized_as_stated (out : list Document) : Prop :=
  ∀ i j x y, i < j → out !! i = Some x → out !! j = Some y →
    tier_as_stated x < tier_as_stated y
    ∨ (tier_as_stated x = tier_as_stated y ∧ String.le (url_of x) (url_of y)).

(** Keeping the first occurrence of each string, in order; [seen] holds
    the strings already met. *)
Fixpoint keep_first (seen l : list string) : list string :=
  match l with
  | [] => []
  | x :: r =>
      if bool_decide (x ∈ seen) then keep_first seen r
      else x :: keep_first (x :: seen) r
  end.

Definition first_occurrences (l : list string) : list string := keep_first [] l.

(** Citation extraction in the specification's words: walk the chunks in
    order, collect the source, skip the sentinel, keep first occurrences,
    truncate to 5. *)
Definition extract_as_stated (prioritized : list Document) : list string :=
  take 5 (first_occurrences
            (filter (λ s, s ≠ "N/A") (source_of <$> prioritized))).

(** What the code returns under [sources] for the retrieved chunks. *)
Definition rag_sources (L : Libs) (relevant_docs : list Document) : list string :=
  take 5 (unique_sources
            (collect_sources (sorted key_ltb (source_key L) relevant_docs))).

(** The prefix of the error that [get_rag_answer] returns when the model
    call fails. *)
Definition GENERATION_FAILED : string := "Failed to generate an answer from the LLM: ".

(** The world after one more call to a library. *)
Definition logged (ev : Event) (w : World) : World :=
  mkWorld (fs w) (calls w ++ [ev]).

(** The prompt that [get_rag_answer] sends for the retrieved chunks. *)
Definition rag_prompt (L : Libs) (relevant_docs : list Document) (question : string)
    : string :=
  RAG_PROMPT_TEMPLATE_format
    (Py.join (Py.nl +:+ Py.nl)
             (page_content <$> sorted key_ltb (source_key L) relevant_docs))
    question.

(** The data that [_ensure_local_vector_store] reads from the knowledge
    base file: nothing when the file cannot be read or parsed. *)
Definition loaded_kb (kb : KBFile) : list KBItem :=
  match kb with KBData kb_data => kb_data | _ => [] end.


(** Post-processing in the specification's words: the first occurrence of
    any of the markers, whichever marker it is. *)
Definition earliest_marker (ms : list string) (answer_text : string) : option nat :=
  foldr (λ m found,
           match Py.find (Py.lower m) (Py.lower answer_text), found with
           | Some i, Some j => Some (i `min` j)
           | Some i, None => Some i
           | None, _ => found
           end)
        None ms.

Definition strip_as_stated (answer_text : string) : string :=
  match earliest_marker markers answer_text with
  | Some cut_idx => Py.rstrip (Py.slice_to cut_idx answer_text)
  | None => answer_text
  end.

(** An answer with two embedded sections, the earlier one under the
    marker that comes second in [markers]. *)
Definition two_sections : string :=
  "Summary." +:+ Py.nl +:+ "Source: a" +:+ Py.nl +:+ "Sources: b".

(** A chunk with the given text and source. *)
Definition chunk (content url : string) : Document :=
  mkDocument content {[ "source" := url ]}.

(** Libraries with fixed answers: the splitter returns its input, the
    embedding model loads, building leaves one file in the directory; the
    fixtures hold ASCII text, on which [str.lower] is [Py.lower]. *)
Definition fixed_libs (opened : DirState → Outcome unit * DirState)
    (retrieved : Outcome (list Document)) (generated : Outcome Response) : Libs :=
  {| split_documents := λ _ _ documents, documents;
     HuggingFaceEmbeddings := λ _ _, Returns tt;
     Chroma_from_documents := λ _ _, (Returns tt, Directory ["chroma.sqlite3"]);
     Chroma_open := opened;
     retriever_invoke := λ _ _ _, retrieved;
     generate_content := λ _ _ _, generated;
     str_lower := Py.lower |}.

(** [Chroma(...)] on a path: creates the directory and its database file
    when there is none. *)
Definition open_creating (d : DirState) : Outcome unit * DirState :=
  match d with
  | NoEntry | Directory [] => (Returns tt, Directory ["chroma.sqlite3"])
  | Directory entries => (Returns tt, Directory entries)
  | RegularFile => (Raises (mkExn "ValueError" "not a directory"), RegularFile)
  end.


Definition empty_world : World := mkWorld (mkFS NoEntry KBMissing) [].

(** Libraries that retrieve nothing, for examples on ASCII sources. *)
Definition ascii_libs : Libs :=
  fixed_libs open_creating (Returns []) (Returns (mkResponse (Returns EmptyString))).

(** A world with the knowledge base of the first end-to-end scenario and
    no index yet. *)
Definition sso_world : World :=
  mkWorld
    (mkFS NoEntry
          (KBData [ {[ "url" := "https://docs.atlan.com/sso";
                       "content" := "To enable SSO, go to Settings > SSO and upload your SAML metadata." ]} ]))
    [].

Definition loaded_pipeline : RAGPipeline :=
  mkRAGPipeline (Some (mkChroma "data/chroma_db")) "gemini-2.5-flash".

(** ** More of the code: callers and scripts *)

(** *** app.py: the call of the pipeline from the agent tab *)

Definition RAG_HINT : string :=
  " Prefer official documentation from docs.atlan.com and developer.atlan.com.".

Section Agent.
Variable L : Libs.
Variable VECTOR_STORE_PATH : string.

(** The body of the [try] block once the pipeline object is at hand. *)
Definition agent_ask (rag : RAGPipeline) (user_input : string) : M RAGResult :=
  get_rag_answer L rag (Py.strip user_input +:+ RAG_HINT).

(** The [try] ... [except Exception] block around the pipeline in the agent
    tab.  [session] is the entry [rag_pipeline] of [st.session_state], if
    any; the result is [rag_result] with the entry as the block leaves it.
    The pipeline is constructed only when the entry is absent, and the
    entry is set only when the construction returns. *)
Definition agent_rag_result (session : option RAGPipeline) (user_input : string)
    : M (RAGResult * option RAGPipeline) :=
  let answer_with (rag : RAGPipeline) : M (RAGResult * option RAGPipeline) :=
    try_except
      (let* rag_result := agent_ask rag user_input in
       ret (rag_result, Some rag))
      (fun e => ret (RAGError ("RAG pipeline error: " +:+ exn_str e), Some rag)) in
  match session with
  | Some rag => answer_with rag
  | None =>
      try_except
        (let* rag := RAGPipeline_init L VECTOR_STORE_PATH in answer_with rag)
        (fun e => ret (RAGError ("RAG pipeline error: " +:+ exn_str e), None))
  end.
End Agent.

(** *** tests/rag_evaluate.py *)

(** [contains_any], for a text and keywords in ASCII. *)
Definition contains_any (text : string) (keywords : list string) : bool :=
  let lower := Py.lower text in
  existsb (fun k => Py.contains (Py.lower k) lower) keywords.

(** *** scripts/build_knowledge_base.py *)

(** What [requests.get], [raise_for_status] and the HTML parser give for a
    URL: an exception of the family [requests.RequestException], another
    exception, or the text of the [main] or [article] element, if there is
    one. *)
Inductive PageFetch :=
| FetchRequestException (e : Exn)
| FetchOtherException (e : Exn)
| FetchMain (text : option string).

Section Crawler.
Variable fetch : string -> PageFetch.

Definition scrape_page_content (url : string) : Outcome (option KBItem) :=
  match fetch url with
  | FetchMain (Some text) => Returns (Some {[ "url" := url; "content" := text ]})
  | FetchMain None => Returns None
  | FetchRequestException _ => Returns None
  | FetchOtherException e => Raises e
  end.

(** Step 2 of the main block: the loop over the links, with the list
    [scraped_data] it builds. *)
Fixpoint scrape_all (links : list string) : Outcome (list KBItem) :=
  match links with
  | [] => Returns []
  | link :: rest =>
      match scrape_page_content link with
      | Raises e => Raises e
      | Returns content_dict =>
          match scrape_all rest with
          | Raises e => Raises e
          | Returns scraped_data =>
              match content_dict with
              | Some d =>
                  if Py.truthy (default EmptyString (d !! "content"))
                  then Returns (d :: scraped_data)
                  else Returns scraped_data
              | None => Returns scraped_data
              end
          end
      end
  end.
End Crawler.

(** *** The bulk classification loop
    ([pipeline/classifier.py], main block, and
    [scripts/precompute_classifications.py]) *)


Section Bulk.
Variable L : Libs.
Variable json_loads : string -> Outcome JSON.
Variable str_dict_keys : list string -> string.
Variable not_iterable : JSON -> string.


End Bulk.

(** *** Further words for the properties *)

(** The question that [query] passes on. *)
Definition enhanced_question (question context : string) : string :=
  if Py.truthy context
  then question +:+ Py.nl +:+ Py.nl +:+ "Additional context: " +:+ context
  else question.

(** The world with something else at the index path. *)
Definition with_store (d : DirState) (w : World) : World :=
  mkWorld (mkFS d (kb_path (fs w))) (calls w).

(** The world in which the embedding model is loaded during a build that
    had to make the directory. *)
Definition build_world (path : string) (w : World) : World :=
  logged (EvEmbeddings EMBEDDING_MODEL_NAME)
         (with_store (Directory []) (logged (EvMakedirs path) w)).

(** The call of the model that [classify_ticket] makes for a ticket. *)
Definition classify_call (ticket_text : string) : Event :=
  EvGenerate "gemini-2.5-flash" (CLASSIFICATION_PROMPT_format ticket_text).


(** The sort key of a chunk, from its source string. *)
Definition url_key (L : Libs) (url : string) : nat * string :=
  let src := str_lower L url in
  if Py.contains "docs.atlan.com" src || Py.contains "developer.atlan.com" src
  then (0, src)
  else (1, src).

(** [p] is an initial part of [s]. *)
Definition is_prefix (p s : string) : Prop := ∃ t, s = p +:+ t.

(** [sub] occurs in [s]. *)
Definition occurs (sub s : string) : Prop := ∃ u v, s = u +:+ sub +:+ v.

(** The number of backticks at the start of a string. *)
Fixpoint leading_ticks (s : string) : nat :=
  match s with
  | String c s' => if Ascii.eqb c "`" then S (leading_ticks s') else 0
  | EmptyString => 0
  end.

(** The records with content, as both builders select them. *)
Definition has_content (item : KBItem) : bool :=
  Py.truthy (default EmptyString (item !! "content")).

(** The events that are calls of the generative model. *)
Definition is_generate (ev : Event) : bool :=
  match ev with EvGenerate _ _ => true | _ => false end.

(** A response of the model, a parser that knows it, and texts for the
    messages of the interpreter. *)
Definition sso_classification_text : string :=
  "{" +:+ Py.dq +:+ "topic_tags" +:+ Py.dq +:+ ": [" +:+ Py.dq +:+ "SSO" +:+ Py.dq +:+ "], " +:+ Py.dq +:+ "sentiment" +:+ Py.dq +:+ ": " +:+ Py.dq +:+ "Curious" +:+ Py.dq +:+ ", " +:+ Py.dq +:+ "priority" +:+ Py.dq +:+ ": " +:+ Py.dq +:+ "P2 (Low)" +:+ Py.dq +:+ "}".

Definition sso_classification : JSON :=
  JObj [ ("topic_tags", JArr [JStr "SSO"]);
         ("sentiment", JStr "Curious");
         ("priority", JStr "P2 (Low)") ].

Definition names_text : string := Py.dq +:+ "topic_tags sentiment priority" +:+ Py.dq.

Definition sample_json_loads (s : string) : Outcome JSON :=
  if bool_decide (s = sso_classification_text) then Returns sso_classification
  else if bool_decide (s = names_text) then Returns (JStr "topic_tags sentiment priority")
  else Raises (mkExn "JSONDecodeError" "Expecting value: line 1 column 1 (char 0)").

Definition sample_str_dict_keys (keys : list string) : string := "dict_keys([...])".

Definition sample_not_iterable (v : JSON) : string :=
  "argument of type 'int' is not iterable".

(** Libraries whose model answers with the given text. *)
Definition answering_libs (answer : string) : Libs :=
  fixed_libs open_creating (Returns []) (Returns (mkResponse (Returns answer))).

(** A model that always raises. *)
Definition failing_libs : Libs :=
  fixed_libs open_creating (Returns [chunk "t" "https://docs.atlan.com/sso"])
             (Raises (mkExn "ResourceExhausted" "429 quota exceeded")).

(** * Properties *)

(** ** The order on sort keys *)

Lemma string_ltb_leb (s t : string) : String.ltb s t = negb (String.leb t s).
Proof.
  unfold String.ltb, String.leb.
  rewrite (String.compare_antisym s t).
  by destruct (String.compare t s).
Qed.

Lemma string_ltb_le (s t : string) : String.ltb t s = false ↔ String.le s t.
Proof.
  rewrite string_ltb_leb, negb_false_iff. unfold String.le.
  symmetry. apply Is_true_true.
Qed.

Lemma key_ltb_irrefl (a : nat * string) : key_ltb a a = false.
Proof.
  unfold key_ltb. rewrite Nat.ltb_irrefl, Nat.eqb_refl. simpl.
  apply string_ltb_le. reflexivity.
Qed.

Lemma key_ltb_false (a b : nat * string) :
  key_ltb b a = false ↔ (a.1 < b.1 ∨ (a.1 = b.1 ∧ String.le a.2 b.2)).
Proof.
  unfold key_ltb. rewrite orb_false_iff, andb_false_iff, Nat.ltb_ge, Nat.eqb_neq,
    string_ltb_le.
  split.
  - intros [Hle [Hne | Hs]]; [left; lia |].
    destruct (decide (a.1 = b.1)); [by right | left; lia].
  - intros [Hlt | [Heq Hs]]; [split; [lia | left; lia] |].
    split; [lia | by right].
Qed.

Lemma key_ltb_le_trans (a b c : nat * string) :
  key_ltb b a = false → key_ltb c b = false → key_ltb c a = false.
Proof.
  rewrite !key_ltb_false.
  intros [H1 | [H1 H1']] [H2 | [H2 H2']]; try (left; lia).
  right. split; [lia | by etrans].
Qed.

Lemma key_ltb_total (a b : nat * string) :
  key_ltb a b = true → key_ltb b a = false.
Proof.
  intros Hab. apply key_ltb_false.
  unfold key_ltb in Hab.
  apply orb_true_iff in Hab as [H | H].
  - apply Nat.ltb_lt in H. by left.
  - apply andb_true_iff in H as [H1 H2]. apply Nat.eqb_eq in H1.
    right. split; [done |].
    rewrite string_ltb_leb, negb_true_iff in H2.
    destruct (total String.le a.2 b.2) as [|Hle]; [done |].
    unfold String.le in Hle. rewrite Is_true_true in Hle. congruence.
Qed.

Lemma key_ltb_antisym (a b : nat * string) :
  key_ltb a b = false → key_ltb b a = false → a = b.
Proof.
  rewrite !key_ltb_false.
  destruct a as [n s], b as [m t]; simpl.
  intros [H1 | [H1 H1']] [H2 | [H2 H2']]; try lia.
  f_equal; [done |]. by apply (anti_symm String.le).
Qed.

(** ** Python's [sorted]: permutation, order, stability, uniqueness *)

Section SortedFacts.
Context {A K : Type} `{EqDecision K} (ltb : K -> K -> bool) (key : A -> K).

Local Abbreviation key_le := (key_le ltb key).

Hypothesis ltb_irrefl : ∀ a, ltb a a = false.
Hypothesis ltb_le_trans : ∀ a b c, ltb b a = false → ltb c b = false → ltb c a = false.
Hypothesis ltb_total : ∀ a b, ltb a b = true → ltb b a = false.
Hypothesis ltb_antisym : ∀ a b, ltb a b = false → ltb b a = false → a = b.

Lemma insert_by_Permutation (x : A) (l : list A) : insert_by ltb key x l ≡ₚ x :: l.
Proof.
  induction l as [|y r IH]; simpl; [done |].
  destruct (ltb (key y) (key x)); [| done].
  rewrite IH. apply Permutation_swap.
Qed.

Lemma sorted_Permutation (l : list A) : sorted ltb key l ≡ₚ l.
Proof.
  induction l as [|x l IH]; simpl; [done |].
  by rewrite insert_by_Permutation, IH.
Qed.

Lemma insert_by_StronglySorted (x : A) (l : list A) :
  StronglySorted key_le l → StronglySorted key_le (insert_by ltb key x l).
Proof using ltb_le_trans ltb_total.
  induction 1 as [|y r Hr IH Hy]; simpl.
  - repeat constructor.
  - destruct (ltb (key y) (key x)) eqn:Hyx.
    + constructor; [done |].
      rewrite insert_by_Permutation. constructor; [| done].
      by apply ltb_total.
    + constructor; [by constructor |].
      constructor; [done |].
      eapply Forall_impl; [exact Hy |].
      intros z Hz. unfold key_le in *. by eapply ltb_le_trans.
Qed.

Lemma sorted_StronglySorted (l : list A) : StronglySorted key_le (sorted ltb key l).
Proof using ltb_le_trans ltb_total.
  induction l as [|x l IH]; simpl; [constructor |].
  by apply insert_by_StronglySorted.
Qed.

(** Stability: the elements with a given key keep their input order. *)
Lemma insert_by_stable (k : K) (x : A) (l : list A) :
  filter (λ y, key y = k) (insert_by ltb key x l) = filter (λ y, key y = k) (x :: l).
Proof using ltb_irrefl.
  induction l as [|y r IH]; simpl; [done |].
  destruct (ltb (key y) (key x)) eqn:Hyx; [| done].
  rewrite !filter_cons in *.
  destruct (decide (key x = k)) as [Hx|Hx], (decide (key y = k)) as [Hy|Hy];
    try (by rewrite IH).
  rewrite Hx, Hy, ltb_irrefl in Hyx. done.
Qed.

Lemma sorted_stable (k : K) (l : list A) :
  filter (λ y, key y = k) (sorted ltb key l) = filter (λ y, key y = k) l.
Proof using ltb_irrefl.
  induction l as [|x l IH]; simpl; [done |].
  rewrite insert_by_stable, !filter_cons. by rewrite IH.
Qed.

(** Two ordered lists with the same elements of every key are equal. *)
Lemma StronglySorted_stable_eq (l1 l2 : list A) :
  StronglySorted key_le l1 → StronglySorted key_le l2 →
  (∀ k, filter (λ y, key y = k) l1 = filter (λ y, key y = k) l2) →
  l1 = l2.
Proof using ltb_irrefl ltb_antisym.
  intros H1. revert l2.
  induction H1 as [|x1 t1 Ht1 IH Hx1]; intros l2 H2 Hf.
  - destruct l2 as [|x2 t2]; [done |].
    specialize (Hf (key x2)). rewrite filter_cons in Hf.
    by destruct (decide (key x2 = key x2)).
  - destruct H2 as [|x2 t2 Ht2 Hx2].
    { specialize (Hf (key x1)). rewrite filter_cons in Hf.
      by destruct (decide (key x1 = key x1)). }
    assert (Hin : ∀ (l l' : list A) z,
               (∀ k, filter (λ y, key y = k) l = filter (λ y, key y = k) l') →
               z ∈ l → z ∈ l').
    { intros l l' z Hk Hz.
      assert (z ∈ filter (λ y, key y = key z) l) as Hz'
        by (apply list_elem_of_filter; done).
      rewrite Hk in Hz'. by apply list_elem_of_filter in Hz' as [_ ?]. }
    assert (Hkey : key x1 = key x2).
    { apply ltb_antisym.
      - assert (x1 ∈ x2 :: t2) as Hm by (eapply Hin; [exact Hf | left]).
        apply elem_of_cons in Hm as [-> | Hm]; [apply ltb_irrefl |].
        rewrite Forall_forall in Hx2. specialize (Hx2 _ Hm).
        unfold key_le in Hx2.
        (* key x2 <= key x1 *)
        destruct (ltb (key x1) (key x2)) eqn:E; [| done].
        exfalso.
        assert (x2 ∈ x1 :: t1) as Hm' by (eapply Hin; [symmetry; apply Hf | left]).
        apply elem_of_cons in Hm' as [-> | Hm'].
        + by rewrite ltb_irrefl in E.
        + rewrite Forall_forall in Hx1. specialize (Hx1 _ Hm').
          unfold key_le in Hx1.
          assert (key x1 = key x2) as Hk by (by apply ltb_antisym).
          rewrite Hk, ltb_irrefl in E. done.
      - assert (x2 ∈ x1 :: t1) as Hm by (eapply Hin; [symmetry; apply Hf | left]).
        apply elem_of_cons in Hm as [-> | Hm]; [apply ltb_irrefl |].
        rewrite Forall_forall in Hx1. by apply Hx1. }
    assert (x1 = x2) as ->.
    { specialize (Hf (key x1)). rewrite !filter_cons in Hf.
      destruct (decide (key x1 = key x1)); [| done].
      destruct (decide (key x2 = key x1)); [| congruence].
      congruence. }
    f_equal. apply IH; [done |].
    intros k. specialize (Hf k). rewrite !filter_cons in Hf.
    destruct (decide (key x2 = k)); [congruence | done].
Qed.

(** [sorted] is the only stable sort: a list that is ordered by key and
    keeps, for every key, the input order of the elements with that key
    is [sorted l]. *)
Lemma sorted_unique (l l' : list A) :
  StronglySorted key_le l' →
  (∀ k, filter (λ y, key y = k) l' = filter (λ y, key y = k) l) →
  l' = sorted ltb key l.
Proof using ltb_irrefl ltb_le_trans ltb_total ltb_antisym.
  intros Hs Hf. apply StronglySorted_stable_eq; [done | |].
  - apply sorted_StronglySorted.
  - intros k. by rewrite sorted_stable.
Qed.
End SortedFacts.

(** ** Source prioritization *)

Lemma StronglySorted_lookup {A} (R : relation A) (l : list A) (i j : nat) (x y : A) :
  StronglySorted R l → i < j → l !! i = Some x → l !! j = Some y → R x y.
Proof.
  intros Hs. revert i j.
  induction Hs as [|z r Hr IH Hz]; intros i j Hij Hi Hj; [done |].
  destruct j as [|j]; [lia |].
  destruct i as [|i]; simpl in *.
  - injection Hi as ->. rewrite Forall_forall in Hz.
    apply Hz. by eapply list_elem_of_lookup_2.
  - apply (IH i j); [lia | done | done].
Qed.

Lemma tier_cases (L : Libs) (doc : Document) :
  (tier L doc = 0
   ∧ Py.contains "docs.atlan.com" (str_lower L (url_of doc))
     || Py.contains "developer.atlan.com" (str_lower L (url_of doc)) = true)
  ∨ (tier L doc = 1
     ∧ Py.contains "docs.atlan.com" (str_lower L (url_of doc))
       || Py.contains "developer.atlan.com" (str_lower L (url_of doc)) = false).
Proof.
  unfold tier, source_key, url_of.
  assert (Hor : ∀ s, Py.or_else s EmptyString = s) by (by intros []).
  rewrite Hor.
  destruct (_ || _); simpl; [left | right]; done.
Qed.

Lemma lowered_url_eq (L : Libs) (doc : Document) :
  lowered_url L doc = str_lower L (url_of doc).
Proof.
  unfold lowered_url, source_key, url_of.
  assert (Hor : ∀ s, Py.or_else s EmptyString = s) by (by intros []).
  rewrite Hor. by destruct (_ || _).
Qed.

(** The order in which [get_rag_answer] uses the retrieved chunks: a
    permutation of the input, ordered by tier and then by lower-cased
    URL, chunks with the same key in their input order. *)
Lemma sorted_docs_spec (L : Libs) (docs : list Document) :
  sorted key_ltb (source_key L) docs ≡ₚ docs
  ∧ StronglySorted (key_le key_ltb (source_key L)) (sorted key_ltb (source_key L) docs)
  ∧ ∀ k, filter (λ d, source_key L d = k) (sorted key_ltb (source_key L) docs)
         = filter (λ d, source_key L d = k) docs.
Proof.
  split; [apply sorted_Permutation |].
  split.
  - apply sorted_StronglySorted; [apply key_ltb_le_trans | apply key_ltb_total].
  - intros k. apply sorted_stable, key_ltb_irrefl.
Qed.

(** Any list that is ordered by [source_key] and keeps, key by key, the
    input order is the list that [get_rag_answer] works with: the choice of
    the sorting algorithm does not matter. *)
Lemma sorted_docs_unique (L : Libs) (docs out : list Document) :
  StronglySorted (key_le key_ltb (source_key L)) out →
  (∀ k, filter (λ d, source_key L d = k) out = filter (λ d, source_key L d = k) docs) →
  out = sorted key_ltb (source_key L) docs.
Proof.
  apply sorted_unique.
  - apply key_ltb_irrefl.
  - apply key_ltb_le_trans.
  - apply key_ltb_total.
  - apply key_ltb_antisym.
Qed.

(** C2, as the code has it, whatever [str.lower] is: for every list of
    retrieved chunks the prioritized list is a permutation of the input; of
    two of its chunks, the one at the earlier position has the smaller
    tier, or the same tier and a lower-cased source URL that is not greater;
    chunks with the same tier and the same lower-cased URL keep their input
    order; the tier is 0 exactly when the lower-cased URL contains
    [docs.atlan.com] or [developer.atlan.com], and 1 otherwise; and the
    prioritized list is the only list that is ordered so and keeps the
    input order key by key. *)
Theorem prioritize_by_lowered_url (L : Libs) (docs : list Document) :
  sorted key_ltb (source_key L) docs ≡ₚ docs
  ∧ (∀ i j x y,
       i < j →
       sorted key_ltb (source_key L) docs !! i = Some x →
       sorted key_ltb (source_key L) docs !! j = Some y →
       tier L x < tier L y
       ∨ (tier L x = tier L y ∧ String.le (lowered_url L x) (lowered_url L y)))
  ∧ (∀ k, filter (λ d, source_key L d = k) (sorted key_ltb (source_key L) docs)
          = filter (λ d, source_key L d = k) docs)
  ∧ (∀ d, lowered_url L d = str_lower L (url_of d)
          ∧ (tier L d = 0 ∨ tier L d = 1)
          ∧ (tier L d = 0 ↔
             Py.contains "docs.atlan.com" (str_lower L (url_of d))
             || Py.contains "developer.atlan.com" (str_lower L (url_of d)) = true))
  ∧ (∀ out,
       StronglySorted (key_le key_ltb (source_key L)) out →
       (∀ k, filter (λ d, source_key L d = k) out = filter (λ d, source_key L d = k) docs) →
       out = sorted key_ltb (source_key L) docs).
Proof.
  destruct (sorted_docs_spec L docs) as (Hperm & Hsorted & Hstable).
  split; [done |]. split; [| split; [done | split]].
  - intros i j x y Hij Hi Hj.
    pose proof (StronglySorted_lookup _ _ _ _ _ _ Hsorted Hij Hi Hj) as Hle.
    unfold key_le in Hle. by apply key_ltb_false in Hle.
  - intros d. split; [apply lowered_url_eq |].
    destruct (tier_cases L d) as [[-> H] | [-> H]].
    + split; [by left | done].
    + split; [by right |]. split; [done | congruence].
  - intros out. apply sorted_docs_unique.
Qed.

(** A chunk of the official documentation retrieved after a blog page is
    placed before it. *)
Lemma prioritize_by_lowered_url_witness :
  tier ascii_libs (chunk "b" "https://docs.atlan.com/sso")
  < tier ascii_libs (chunk "a" "https://blog.example.com/x")
  ∨ (tier ascii_libs (chunk "b" "https://docs.atlan.com/sso")
     = tier ascii_libs (chunk "a" "https://blog.example.com/x")
     ∧ String.le (lowered_url ascii_libs (chunk "b" "https://docs.atlan.com/sso"))
                 (lowered_url ascii_libs (chunk "a" "https://blog.example.com/x"))).
Proof.
  apply (proj1 (proj2 (prioritize_by_lowered_url ascii_libs
                         [chunk "a" "https://blog.example.com/x";
                          chunk "b" "https://docs.atlan.com/sso"]))
           0 1).
  - lia.
  - vm_compute. reflexivity.
  - vm_compute. reflexivity.
Defined.

(** C2 as stated fails: two chunks with the sources [B] and [a] come out
    as [a], [B], one tier, although [B] precedes [a] in the order of the
    URLs themselves. *)
Lemma prioritize_not_by_raw_url :
  ¬ prioritized_as_stated
      (sorted key_ltb (source_key ascii_libs) [chunk "x" "B"; chunk "y" "a"]).
Proof.
  intros H.
  specialize (H 0 1 (chunk "y" "a") (chunk "x" "B")).
  destruct H as [H | [_ H]]; [lia | reflexivity | reflexivity | |].
  - vm_compute in H. lia.
  - vm_compute in H. done.
Qed.

(** ** Citation extraction *)

Lemma keep_first_ext (seen seen' l : list string) :
  (∀ x, x ∈ l → (x ∈ seen ↔ x ∈ seen')) → keep_first seen l = keep_first seen' l.
Proof.
  revert seen seen'. induction l as [|x r IH]; intros seen seen' H; simpl; [done |].
  assert (Hx : x ∈ seen ↔ x ∈ seen') by (apply H; left).
  destruct (decide (x ∈ seen)) as [Hin|Hin].
  - rewrite !bool_decide_eq_true_2 by tauto.
    apply IH. intros z Hz. apply H. by right.
  - rewrite !bool_decide_eq_false_2 by tauto.
    f_equal. apply IH. intros z Hz.
    rewrite !elem_of_cons. rewrite (H z); [done | by right].
Qed.

(** A loop that appends the strings not yet in the accumulator computes
    [keep_first]. *)
Lemma foldl_append_fresh (P : string → bool) (acc l : list string) :
  foldl (λ acc s, if P s && bool_decide (s ∉ acc) then acc ++ [s] else acc) acc l
  = acc ++ keep_first acc (filter (λ s, P s = true) l).
Proof.
  revert acc. induction l as [|x r IH]; intros acc; simpl.
  - by rewrite app_nil_r.
  - rewrite filter_cons. destruct (P x) eqn:HP; simpl.
    + destruct (decide (P x = true)) as [_|]; [| done]. simpl.
      destruct (decide (x ∈ acc)) as [Hin|Hin].
      * rewrite bool_decide_eq_false_2 by tauto.
        rewrite bool_decide_eq_true_2 by done. apply IH.
      * rewrite bool_decide_eq_true_2 by done.
        rewrite (bool_decide_eq_false_2 (x ∈ acc)) by done.
        rewrite IH, <- app_assoc. simpl. do 2 f_equal.
        apply keep_first_ext. intros z _.
        rewrite elem_of_app, list_elem_of_singleton, elem_of_cons. tauto.
    + destruct (decide (P x = true)) as [|_]; [congruence |]. apply IH.
Qed.

Lemma collect_sources_eq (docs : list Document) :
  collect_sources docs
  = first_occurrences (filter (λ s, s ≠ "N/A") (source_of <$> docs)).
Proof.
  unfold collect_sources, first_occurrences.
  pose proof (foldl_append_fresh (λ s, bool_decide (s ≠ "N/A")) [] (source_of <$> docs)) as H.
  rewrite foldl_fmap in H. simpl in H.
  etrans; [exact H |].
  f_equal. apply list_filter_iff. intros s. by rewrite bool_decide_eq_true.
Qed.

Lemma unique_sources_eq (sources : list string) :
  unique_sources sources
  = first_occurrences (filter (λ s, s ≠ EmptyString) sources).
Proof.
  unfold unique_sources, first_occurrences.
  rewrite (foldl_append_fresh Py.truthy [] sources). simpl.
  f_equal. apply list_filter_iff. intros []; simpl; split; done.
Qed.

Lemma filter_keep_first (P : string → Prop) `{∀ s, Decision (P s)}
    (seen seen' l : list string) :
  (∀ x, P x → (x ∈ seen ↔ x ∈ seen')) →
  filter P (keep_first seen l) = keep_first seen' (filter P l).
Proof.
  revert seen seen'. induction l as [|x r IH]; intros seen seen' Hs; simpl; [done |].
  rewrite (filter_cons P x r).
  destruct (decide (x ∈ seen)) as [Hin|Hin].
  - rewrite bool_decide_eq_true_2 by done.
    destruct (decide (P x)) as [HP|HP]; simpl.
    + rewrite bool_decide_eq_true_2 by (by apply Hs). by apply IH.
    + by apply IH.
  - rewrite bool_decide_eq_false_2 by done.
    rewrite filter_cons.
    destruct (decide (P x)) as [HP|HP]; simpl.
    + rewrite bool_decide_eq_false_2 by (by rewrite <- Hs).
      f_equal. apply IH. intros z Hz. rewrite !elem_of_cons, (Hs z Hz). done.
    + apply IH. intros z Hz. rewrite elem_of_cons, <- (Hs z Hz).
      split; [intros [-> | ?]; done | by right].
Qed.

Lemma keep_first_idemp (seen l : list string) :
  keep_first seen (keep_first seen l) = keep_first seen l.
Proof.
  revert seen. induction l as [|x r IH]; intros seen; simpl; [done |].
  destruct (decide (x ∈ seen)) as [Hin|Hin].
  - rewrite bool_decide_eq_true_2 by done. apply IH.
  - rewrite bool_decide_eq_false_2 by done. simpl.
    rewrite bool_decide_eq_false_2 by done. f_equal. apply IH.
Qed.

Lemma keep_first_fresh (seen l : list string) (x : string) :
  x ∈ keep_first seen l → (x ∉ seen) ∧ (x ∈ l).
Proof.
  revert seen. induction l as [|y r IH]; intros seen; simpl; [by intros ?%elem_of_nil |].
  destruct (decide (y ∈ seen)) as [Hin|Hin].
  - rewrite bool_decide_eq_true_2 by done. intros [? ?]%IH. split; [done | by right].
  - rewrite bool_decide_eq_false_2 by done.
    intros [-> | [Hn ?]%IH]%elem_of_cons; [split; [done | left] |].
    split; [| by right]. intros ?. apply Hn. by right.
Qed.

Lemma keep_first_NoDup (seen l : list string) : NoDup (keep_first seen l).
Proof.
  revert seen. induction l as [|y r IH]; intros seen; simpl; [constructor |].
  destruct (bool_decide (y ∈ seen)); [apply IH |].
  constructor; [| apply IH].
  intros [Hn _]%keep_first_fresh. apply Hn. left.
Qed.

(** The two loops and the slice of [get_rag_answer], as one expression. *)
Lemma rag_sources_eq (L : Libs) (docs : list Document) :
  rag_sources L docs
  = take 5 (first_occurrences
              (filter (λ s, s ≠ "N/A" ∧ s ≠ EmptyString)
                      (source_of <$> sorted key_ltb (source_key L) docs))).
Proof.
  unfold rag_sources. rewrite collect_sources_eq, unique_sources_eq.
  unfold first_occurrences.
  rewrite (filter_keep_first _ [] []) by done.
  rewrite keep_first_idemp. rewrite list_filter_filter.
  do 2 f_equal. apply list_filter_iff. intros s. tauto.
Qed.

Lemma rag_sources_bounded (L : Libs) (docs : list Document) :
  (length (rag_sources L docs) ≤ 5)%nat ∧ NoDup (rag_sources L docs).
Proof.
  rewrite rag_sources_eq. split.
  - rewrite length_take. lia.
  - eapply sublist_NoDup; [apply keep_first_NoDup | apply sublist_take].
Qed.

(** ** [get_rag_answer], case by case *)

Lemma get_rag_answer_cases (L : Libs) (self : RAGPipeline) (q : string) (w : World) :
  get_rag_answer L self q w =
  match vector_store self with
  | None => (Returns (RAGError "Vector store is not available."), w)
  | Some _ =>
      let w1 := logged (EvRetrieve 8 q) w in
      match retriever_invoke L w1 8 q with
      | Raises e => (Raises e, w1)
      | Returns [] => (Returns (RAGAnswer NO_EVIDENCE_ANSWER [] None), w1)
      | Returns docs =>
          let w2 := logged (EvGenerate (llm self) (rag_prompt L docs q)) w1 in
          match generate_content L w2 (llm self) (rag_prompt L docs q) with
          | Raises e => (Returns (RAGError (GENERATION_FAILED +:+ exn_str e)), w2)
          | Returns response =>
              match text response with
              | Raises e => (Returns (RAGError (GENERATION_FAILED +:+ exn_str e)), w2)
              | Returns t =>
                  (Returns (RAGAnswer (Py.or_else t EmptyString) (rag_sources L docs)
                                      (Some (length docs))), w2)
              end
          end
      end
  end.
Proof.
  unfold get_rag_answer.
  destruct (vector_store self) as [c|]; [| done].
  unfold bind at 1. unfold invoke_retriever, bind, log, get_world, lift. simpl.
  fold (logged (EvRetrieve 8 q) w).
  destruct (retriever_invoke L _ 8 q) as [[|d docs]|e]; [done | | done].
  unfold try_except, llm_generate_content, bind, log, get_world, lift, ret. simpl.
  fold (rag_prompt L (d :: docs) q).
  fold (logged (EvGenerate (llm self) (rag_prompt L (d :: docs) q)) (logged (EvRetrieve 8 q) w)).
  destruct (generate_content L _ _ _) as [response|e]; [| done].
  destruct (text response) as [t|e]; done.
Qed.

(** C1, as the code has it: whenever [get_rag_answer] returns an answer,
    its sources are obtained from the retrieved chunks in prioritized
    order by collecting each chunk's source, skipping the sentinel [N/A]
    and the empty string, keeping the first occurrence of each URL and
    truncating to 5; the list has at most 5 entries and no duplicate. *)
Theorem sources_first_occurrences (L : Libs) (self : RAGPipeline) (q : string)
    (w w' : World) (answer : string) (srcs : list string) (n : option nat) :
  get_rag_answer L self q w = (Returns (RAGAnswer answer srcs n), w') →
  ∃ docs,
    retriever_invoke L (logged (EvRetrieve 8 q) w) 8 q = Returns docs
    ∧ srcs = take 5 (first_occurrences
                       (filter (λ s, s ≠ "N/A" ∧ s ≠ EmptyString)
                               (source_of <$> sorted key_ltb (source_key L) docs)))
    ∧ (length srcs ≤ 5)%nat
    ∧ NoDup srcs.
Proof.
  rewrite get_rag_answer_cases.
  destruct (vector_store self) as [c|]; [| done]. simpl.
  destruct (retriever_invoke L _ 8 q) as [docs|e] eqn:Hr; [| done].
  intros H. exists docs. split; [done |].
  destruct docs as [|d docs].
  - injection H as <- <- <- <-. repeat split; [simpl; lia | constructor].
  - destruct (generate_content L _ _ _) as [response|e]; [| done].
    destruct (text response) as [t|e]; [| done].
    injection H as <- <- <- <-.
    split; [apply rag_sources_eq | apply rag_sources_bounded].
Qed.

(** Eight chunks of one page and two of another, retrieved in mixed
    order: two sources are returned. *)
Lemma sources_first_occurrences_witness :
  ∃ docs,
    Returns (replicate 4 (chunk "t" "https://docs.atlan.com/sso")
             ++ [chunk "u" "https://blog.example.com/x"]
             ++ replicate 4 (chunk "t" "https://docs.atlan.com/sso")
             ++ [chunk "u" "https://blog.example.com/x"])
    = Returns docs
    ∧ ["https://docs.atlan.com/sso"; "https://blog.example.com/x"]
      = take 5 (first_occurrences
                  (filter (λ s, s ≠ "N/A" ∧ s ≠ EmptyString)
                          (source_of <$> sorted key_ltb (source_key ascii_libs) docs)))
    ∧ (length ["https://docs.atlan.com/sso"; "https://blog.example.com/x"] ≤ 5)%nat
    ∧ NoDup ["https://docs.atlan.com/sso"; "https://blog.example.com/x"].
Proof.
  eapply (sources_first_occurrences
            (fixed_libs open_creating
               (Returns (replicate 4 (chunk "t" "https://docs.atlan.com/sso")
                         ++ [chunk "u" "https://blog.example.com/x"]
                         ++ replicate 4 (chunk "t" "https://docs.atlan.com/sso")
                         ++ [chunk "u" "https://blog.example.com/x"]))
               (Returns (mkResponse (Returns "Enable SSO in the settings."))))
            loaded_pipeline "How do I enable SSO?" empty_world).
  vm_compute. reflexivity.
Defined.

(** C1 as stated fails on a chunk whose source is the empty string (a
    record of the knowledge base without [url] is indexed with that
    source): the specification's walk keeps it, the code returns no
    source. *)
Lemma sources_skip_empty_string :
  fst (get_rag_answer
         (fixed_libs open_creating (Returns [chunk "text" EmptyString])
                     (Returns (mkResponse (Returns "ok"))))
         loaded_pipeline "q" empty_world)
  = Returns (RAGAnswer "ok" [] (Some 1))
  ∧ extract_as_stated
      (sorted key_ltb (source_key ascii_libs) [chunk "text" EmptyString])
    = [EmptyString]
  ∧ kb_documents [{[ "content" := "text" ]}] = [chunk "text" EmptyString].
Proof. repeat split; vm_compute; reflexivity. Qed.

(** ** Results and errors of [get_rag_answer] *)

(** C3: when the store is loaded and retrieval returns no chunk,
    [get_rag_answer] returns the fixed answer with no sources, and the only
    call it has made is the retrieval: the model is not called. *)
Theorem no_evidence_is_an_answer (L : Libs) (self : RAGPipeline) (c : Chroma)
    (q : string) (w : World) :
  vector_store self = Some c →
  retriever_invoke L (logged (EvRetrieve 8 q) w) 8 q = Returns [] →
  ∃ w', get_rag_answer L self q w = (Returns (RAGAnswer NO_EVIDENCE_ANSWER [] None), w')
        ∧ fs w' = fs w
        ∧ calls w' = calls w ++ [EvRetrieve 8 q].
Proof.
  intros Hvs Hr. exists (logged (EvRetrieve 8 q) w).
  rewrite get_rag_answer_cases, Hvs. simpl. rewrite Hr. done.
Qed.

Lemma no_evidence_is_an_answer_witness :
  ∃ w', get_rag_answer
          (fixed_libs open_creating (Returns [])
                      (Raises (mkExn "RuntimeError" "the model must not be called")))
          loaded_pipeline "What is the weather?" empty_world
        = (Returns (RAGAnswer NO_EVIDENCE_ANSWER [] None), w')
        ∧ fs w' = fs empty_world
        ∧ calls w' = calls empty_world ++ [EvRetrieve 8 "What is the weather?"].
Proof.
  apply (no_evidence_is_an_answer _ loaded_pipeline (mkChroma "data/chroma_db")).
  - reflexivity.
  - reflexivity.
Defined.

(** C4, as the code has it: with the store loaded, when retrieval returns,
    [get_rag_answer] returns a result and does not raise, and a failure of
    the model call or of reading its text gives the error that starts
    [Failed to generate an answer from the LLM: ] and ends with the text of
    the exception; when retrieval raises, [get_rag_answer] raises the same
    exception, and [query] turns it into its apology string. *)
Theorem generation_failure_is_error (L : Libs) (self : RAGPipeline) (c : Chroma)
    (q : string) (w : World) :
  vector_store self = Some c →
  let w1 := logged (EvRetrieve 8 q) w in
  match retriever_invoke L w1 8 q with
  | Returns docs =>
      ∃ r w', get_rag_answer L self q w = (Returns r, w')
        ∧ (docs ≠ [] → ∀ e,
             generate_content L (logged (EvGenerate (llm self) (rag_prompt L docs q)) w1)
                              (llm self) (rag_prompt L docs q) = Raises e
             ∨ (∃ response,
                  generate_content L (logged (EvGenerate (llm self) (rag_prompt L docs q)) w1)
                                   (llm self) (rag_prompt L docs q) = Returns response
                  ∧ text response = Raises e) →
             r = RAGError (GENERATION_FAILED +:+ exn_str e))
  | Raises e =>
      get_rag_answer L self q w = (Raises e, w1)
      ∧ query L self q EmptyString w
        = (Returns ("I'm sorry, I encountered an error while processing your question: "
                    +:+ exn_str e), w1)
  end.
Proof.
  intros Hvs w1.
  destruct (retriever_invoke L w1 8 q) as [docs|e] eqn:Hr.
  - rewrite get_rag_answer_cases, Hvs. simpl. fold w1. rewrite Hr.
    destruct docs as [|d docs].
    { eexists _, _. split; [done |]. by intros []. }
    destruct (generate_content L _ _ _) as [response|e'] eqn:Hg.
    + destruct (text response) as [t|e'] eqn:Ht.
      * eexists _, _. split; [done |].
        intros _ e [? | (r' & [= <-] & ?)]; congruence.
      * eexists _, _. split; [done |].
        intros _ e [? | (r' & [= <-] & ?)]; congruence.
    + eexists _, _. split; [done |].
      intros _ e [? | (r' & ? & ?)]; congruence.
  - assert (Hget : get_rag_answer L self q w = (Raises e, w1)).
    { rewrite get_rag_answer_cases, Hvs. simpl. fold w1. by rewrite Hr. }
    split; [done |].
    unfold query, try_except, bind. simpl. by rewrite Hget.
Qed.

Lemma generation_failure_is_error_witness :
  ∃ r w',
    get_rag_answer
      (fixed_libs open_creating (Returns [chunk "t" "https://docs.atlan.com/sso"])
                  (Raises (mkExn "ResourceExhausted" "429 quota exceeded")))
      loaded_pipeline "How do I enable SSO?" empty_world = (Returns r, w')
    ∧ r = RAGError "Failed to generate an answer from the LLM: 429 quota exceeded".
Proof.
  pose proof (generation_failure_is_error
                (fixed_libs open_creating (Returns [chunk "t" "https://docs.atlan.com/sso"])
                            (Raises (mkExn "ResourceExhausted" "429 quota exceeded")))
                loaded_pipeline (mkChroma "data/chroma_db")
                "How do I enable SSO?" empty_world eq_refl) as H.
  simpl in H. destruct H as (r & w' & Hget & Herr).
  exists r, w'. split; [exact Hget |].
  apply (Herr ltac:(done) (mkExn "ResourceExhausted" "429 quota exceeded")).
  left. reflexivity.
Defined.

(** C4 as stated fails: an exception of the retriever leaves
    [get_rag_answer] as an exception, not as a result with [error]. *)
Lemma retrieval_failure_is_raised :
  get_rag_answer
    (fixed_libs open_creating (Raises (mkExn "InternalError" "database is locked"))
                (Returns (mkResponse (Returns "ok"))))
    loaded_pipeline "How do I enable SSO?" empty_world
  = (Raises (mkExn "InternalError" "database is locked"),
     logged (EvRetrieve 8 "How do I enable SSO?") empty_world).
Proof. reflexivity. Qed.

(** ** Building and loading the index *)

Section Build.
Variable L : Libs.
Variable VECTOR_STORE_PATH : string.

Local Abbreviation ensure := (_ensure_local_vector_store L VECTOR_STORE_PATH).

(** The four early returns of [_ensure_local_vector_store], and the
    build. *)
Lemma ensure_cases (w : World) :
  ensure w =
  match store_path (fs w) with
  | Directory (_ :: _) => (Returns tt, w)
  | _ =>
      match kb_path (fs w) with
      | KBMissing => (Returns tt, w)
      | kb =>
          match loaded_kb kb with
          | [] => (Returns tt, w)
          | kb_data =>
              match kb_documents kb_data with
              | [] => (Returns tt, w)
              | documents =>
                  match split_documents L 1000 100 documents with
                  | [] => (Returns tt, w)
                  | chunks =>
                      (let* _ := os_makedirs VECTOR_STORE_PATH in
                       let* _ := new_embeddings L in
                       from_documents L VECTOR_STORE_PATH chunks) w
                  end
              end
          end
      end
  end.
Proof.
  unfold _ensure_local_vector_store. unfold bind at 1. unfold get_world.
  assert (Hkb :
    match kb_path (fs w) with
    | KBMissing => ret tt
    | kb =>
        match loaded_kb kb with
        | [] => ret tt
        | _ =>
            match kb_documents (loaded_kb kb) with
            | [] => ret tt
            | _ =>
                match split_documents L 1000 100 (kb_documents (loaded_kb kb)) with
                | [] => ret tt
                | _ =>
                    let* _ := os_makedirs VECTOR_STORE_PATH in
                    let* _ := new_embeddings L in
                    from_documents L VECTOR_STORE_PATH
                      (split_documents L 1000 100 (kb_documents (loaded_kb kb)))
                end
            end
        end
    end w
    = match kb_path (fs w) with
      | KBMissing => (Returns tt, w)
      | kb =>
          match loaded_kb kb with
          | [] => (Returns tt, w)
          | kb_data =>
              match kb_documents kb_data with
              | [] => (Returns tt, w)
              | documents =>
                  match split_documents L 1000 100 documents with
                  | [] => (Returns tt, w)
                  | chunks =>
                      (let* _ := os_makedirs VECTOR_STORE_PATH in
                       let* _ := new_embeddings L in
                       from_documents L VECTOR_STORE_PATH chunks) w
                  end
              end
          end
      end).
  { destruct (kb_path (fs w)) as [| |kb_data]; [done | done |].
    cbn [loaded_kb].
    destruct kb_data as [|item kb_data]; [done |].
    destruct (kb_documents (item :: kb_data)) as [|d ds]; [done |].
    by destruct (split_documents L 1000 100 (d :: ds)). }
  destruct (store_path (fs w)) as [| |[|e es]]; [| | | done];
    (etrans; [| exact Hkb]); by destruct (kb_path (fs w)).
Qed.

(** Each of the early returns leaves the world as it was. *)
Lemma ensure_returns_early (w : World) :
  (∃ e es, store_path (fs w) = Directory (e :: es))
  ∨ kb_path (fs w) = KBMissing
  ∨ loaded_kb (kb_path (fs w)) = []
  ∨ kb_documents (loaded_kb (kb_path (fs w))) = []
  ∨ split_documents L 1000 100 (kb_documents (loaded_kb (kb_path (fs w)))) = [] →
  ensure w = (Returns tt, w).
Proof.
  intros H. rewrite ensure_cases.
  destruct (store_path (fs w)) as [| |[|e es]] eqn:Hdir; [| | | done];
    (destruct H as [(e' & es' & ?) | H]; [done |]);
    (destruct (kb_path (fs w)) as [| |kb_data]; [done | done |]);
    (destruct H as [? | H]; [done |]); cbn [loaded_kb] in *;
    (destruct kb_data as [|item kb_data]; [done |]);
    (destruct (kb_documents (item :: kb_data)) as [|d ds]; [done |]);
    (destruct (split_documents L 1000 100 (d :: ds)); [done |]);
    by destruct H as [H | [H | H]].
Qed.

(** C6: when the index path is a non-empty directory, or the knowledge
    base file is absent, [_ensure_local_vector_store] returns without an
    error and leaves the world as it was: nothing is created or written
    at the index path and no library is called, so no build takes place. *)
Theorem ensure_skips_populated_index (w : World) :
  (∃ e es, store_path (fs w) = Directory (e :: es)) ∨ kb_path (fs w) = KBMissing →
  ensure w = (Returns tt, w).
Proof.
  intros [H | H]; apply ensure_returns_early; [by left | by right; left].
Qed.

(** C7: when the knowledge base loads as an empty list (or cannot be
    loaded), when no record has content, or when the splitter returns no
    chunk, [_ensure_local_vector_store] returns and leaves the world as
    it was: no directory is made, nothing is written at the index path. *)
Theorem ensure_aborts_on_nothing (w : World) :
  loaded_kb (kb_path (fs w)) = []
  ∨ kb_documents (loaded_kb (kb_path (fs w))) = []
  ∨ split_documents L 1000 100 (kb_documents (loaded_kb (kb_path (fs w)))) = [] →
  ensure w = (Returns tt, w).
Proof.
  intros H. apply ensure_returns_early. by do 2 right.
Qed.
End Build.

(** After a first call has built the index of the first scenario, a second
    call changes nothing. *)
Lemma ensure_skips_populated_index_witness :
  _ensure_local_vector_store (fixed_libs open_creating (Returns []) (Returns (mkResponse (Returns "ok"))))
    "data/chroma_db"
    (snd (_ensure_local_vector_store
            (fixed_libs open_creating (Returns []) (Returns (mkResponse (Returns "ok"))))
            "data/chroma_db" sso_world))
  = (Returns tt,
     snd (_ensure_local_vector_store
            (fixed_libs open_creating (Returns []) (Returns (mkResponse (Returns "ok"))))
            "data/chroma_db" sso_world)).
Proof.
  apply ensure_skips_populated_index.
  left. exists "chroma.sqlite3", []. vm_compute. reflexivity.
Defined.

(** The first call of the witness above did build. *)
Example ensure_builds_sso_index :
  _ensure_local_vector_store
    (fixed_libs open_creating (Returns []) (Returns (mkResponse (Returns "ok"))))
    "data/chroma_db" sso_world
  = (Returns tt,
     mkWorld
       (mkFS (Directory ["chroma.sqlite3"]) (kb_path (fs sso_world)))
       [ EvMakedirs "data/chroma_db";
         EvEmbeddings "all-MiniLM-L6-v2";
         EvFromDocuments
           [chunk "To enable SSO, go to Settings > SSO and upload your SAML metadata."
                  "https://docs.atlan.com/sso"]
           "data/chroma_db" ]).
Proof. vm_compute. reflexivity. Qed.

(** A knowledge base whose only record has no content: nothing is built. *)
Lemma ensure_aborts_on_nothing_witness :
  _ensure_local_vector_store (fixed_libs open_creating (Returns []) (Returns (mkResponse (Returns "ok"))))
    "data/chroma_db"
    (mkWorld (mkFS NoEntry (KBData [ {[ "url" := "https://docs.atlan.com/sso" ]} ])) [])
  = (Returns tt,
     mkWorld (mkFS NoEntry (KBData [ {[ "url" := "https://docs.atlan.com/sso" ]} ])) []).
Proof.
  apply ensure_aborts_on_nothing.
  right. left. vm_compute. reflexivity.
Defined.




(** ** Records without content *)







(** ** The classifier *)

(** C10: for the empty ticket text [classify_ticket] returns the error
    [Input ticket text cannot be empty.] and leaves the world as it was: no
    call to the generative model is made. *)
Theorem classify_empty_ticket (L : Libs) (json_loads : string → Outcome JSON)
    (str_dict_keys : list string → string) (not_iterable : JSON → string) (w : World) :
  classify_ticket L json_loads str_dict_keys not_iterable EmptyString w
  = (Returns (ClassifyError "Input ticket text cannot be empty." None), w).
Proof. reflexivity. Qed.

Lemma classify_except_world (response : option Response) (e : Exn) (w : World) :
  (classify_except response e w).2 = w.
Proof.
  unfold classify_except.
  destruct (bool_decide (exn_class e = "JSONDecodeError")); [| done].
  unfold bind, lift, ret.
  destruct response as [r|]; [| done].
  by destruct (text r).
Qed.

(** For any other ticket text the model is called, once, before anything
    is returned. *)
Lemma classify_calls_model (L : Libs) (json_loads : string → Outcome JSON)
    (str_dict_keys : list string → string) (not_iterable : JSON → string)
    (ticket_text : string) (w : World) :
  ticket_text ≠ EmptyString →
  calls (classify_ticket L json_loads str_dict_keys not_iterable ticket_text w).2
  = calls w ++ [EvGenerate "gemini-2.5-flash" (CLASSIFICATION_PROMPT_format ticket_text)].
Proof.
  intros Hne. unfold classify_ticket.
  destruct ticket_text as [|c s]; [done |]. cbn [Py.truthy negb].
  set (w1 := mkWorld _ _).
  change (calls w ++ _) with (calls w1).
  destruct (generate_content L _ _ _) as [response|e];
    [| by rewrite classify_except_world].
  unfold try_except.
  match goal with |- context [bind ?m ?k w1] => destruct (bind m k w1) as [o w2] eqn:Hb end.
  assert (w2 = w1) as ->.
  { unfold bind, lift, ret, raise in Hb.
    destruct (text response) as [t|e]; [| congruence].
    destruct (json_loads _) as [classification|e]; [| congruence].
    destruct (all_keys_in not_iterable required_keys classification)
      as [[|]|e]; congruence. }
  destruct o as [r|e]; [done | by rewrite classify_except_world].
Qed.

(** ** Post-processing of the answer *)

Lemma strip_sources_no_marker (answer_text : string) :
  cut_index markers answer_text = None →
  strip_sources_from_answer answer_text = answer_text.
Proof.
  intros H. unfold strip_sources_from_answer. rewrite H.
  by destruct answer_text.
Qed.

Lemma strip_sources_cut (answer_text : string) (cut_idx : nat) :
  cut_index markers answer_text = Some cut_idx →
  strip_sources_from_answer answer_text = Py.rstrip (Py.slice_to cut_idx answer_text).
Proof.
  intros H. unfold strip_sources_from_answer. rewrite H.
  destruct answer_text; [| done]. by destruct cut_idx.
Qed.

Lemma lower_ascii_newline (c : ascii) :
  Py.lower_ascii c = ascii_of_nat 10 → c = ascii_of_nat 10.
Proof.
  destruct c as [[] [] [] [] [] [] [] []]; vm_compute; congruence.
Qed.

Lemma find_cons (sub : string) (a : ascii) (s : string) :
  Py.find sub (String a s)
  = if String.prefix sub (String a s) then Some 0 else S <$> Py.find sub s.
Proof. reflexivity. Qed.

Lemma prefix_cons (c a : ascii) (sub s : string) :
  String.prefix (String c sub) (String a s)
  = if ascii_dec c a then String.prefix sub s else false.
Proof. reflexivity. Qed.

Lemma contains_cons (sub : string) (a : ascii) (s : string) :
  Py.contains sub s = true → Py.contains sub (String a s) = true.
Proof.
  unfold Py.contains. rewrite find_cons.
  destruct (String.prefix sub (String a s)); [done |].
  by destruct (Py.find sub s).
Qed.

Lemma contains_head (a : ascii) (s : string) :
  Py.contains (String a EmptyString) (String a s) = true.
Proof.
  unfold Py.contains. rewrite find_cons, prefix_cons.
  destruct (ascii_dec a a); [| done]. by destruct s.
Qed.

(** A match of a pattern that starts with a line feed, in the lower-cased
    text, needs a line feed in the text. *)
Lemma find_starts_with (sub s : string) (i : nat) :
  Py.find (String (ascii_of_nat 10) sub) (Py.lower s) = Some i →
  Py.contains Py.nl s = true.
Proof.
  revert i. induction s as [|a s IH]; intros i; [done |].
  cbn [Py.lower]. rewrite find_cons.
  destruct (String.prefix _ (String (Py.lower_ascii a) (Py.lower s))) eqn:Hp.
  - intros _. rewrite prefix_cons in Hp.
    destruct (ascii_dec (ascii_of_nat 10) (Py.lower_ascii a)) as [Heq|]; [| done].
    symmetry in Heq. apply lower_ascii_newline in Heq as ->.
    apply contains_head.
  - destruct (Py.find _ (Py.lower s)) as [j|] eqn:Hj; [| done].
    intros _. apply contains_cons. by apply (IH j).
Qed.

(** An answer that has no line break is returned as it is, whatever it
    says about sources. *)
Lemma strip_sources_single_line (answer_text : string) :
  Py.contains Py.nl answer_text = false →
  strip_sources_from_answer answer_text = answer_text.
Proof.
  intros Hnl. apply strip_sources_no_marker.
  assert (H : ∀ ms, Forall (λ m, ∃ sub, Py.lower m = String (ascii_of_nat 10) sub) ms →
                    cut_index ms answer_text = None).
  { induction 1 as [|m ms (sub & Hm) _ IH]; simpl; [done |].
    rewrite Hm.
    destruct (Py.find _ (Py.lower answer_text)) as [i|] eqn:Hi; [| done].
    apply find_starts_with in Hi. congruence. }
  apply H. repeat constructor; eexists; vm_compute; reflexivity.
Qed.

Example strip_sources_section :
  strip_sources_from_answer
    ("Enable SSO in the settings.  " +:+ Py.nl +:+ Py.nl +:+ "SOURCES:" +:+ Py.nl
     +:+ "- https://docs.atlan.com/sso")
  = "Enable SSO in the settings.".
Proof. vm_compute. reflexivity. Qed.

Example strip_sources_mid_sentence :
  strip_sources_from_answer "Atlan is not open source: see the sources: a, b."
  = "Atlan is not open source: see the sources: a, b.".
Proof. vm_compute. reflexivity. Qed.

(** C8, where the code departs from it: in an answer with a [Source:]
    section followed by a [Sources:] section the loop stops at the marker
    it tries first and cuts at the later section; the earlier section stays
    in the answer, while the first occurrence of any marker is at the
    earlier one. *)
Theorem strip_sources_keeps_earlier_section :
  strip_sources_from_answer two_sections = "Summary." +:+ Py.nl +:+ "Source: a"
  ∧ strip_as_stated two_sections = "Summary."
  ∧ cut_index markers two_sections = Some 18
  ∧ earliest_marker markers two_sections = Some 8.
Proof. repeat split; vm_compute; reflexivity. Qed.

(** ** The string functions on examples *)

Example lower_ex : Py.lower "https://Docs.Atlan.COM/SSO" = "https://docs.atlan.com/sso".
Proof. reflexivity. Qed.

Example find_ex : Py.find "lo" "hello" = Some 3.
Proof. reflexivity. Qed.

Example find_absent_ex : Py.find "xy" "hello" = None.
Proof. reflexivity. Qed.

Example replace_ex : Py.replace "ab" "-" "xababyab" = "x--y-".
Proof. reflexivity. Qed.

Example rstrip_ex : Py.rstrip "a b  " = "a b".
Proof. reflexivity. Qed.

Example strip_no_break_space_ex :
  Py.strip (String (ascii_of_nat 194) (String (ascii_of_nat 160) "{} ")) = "{}".
Proof. reflexivity. Qed.

Example clean_ex :
  _clean_llm_response ("```json" +:+ Py.nl +:+ "{}" +:+ Py.nl +:+ "```") = "{}".
Proof. vm_compute. reflexivity. Qed.

Example sorted_stable_ex :
  page_content <$> sorted key_ltb (source_key ascii_libs)
    [chunk "1" "https://blog.example.com/x"; chunk "2" "https://docs.atlan.com/b";
     chunk "3" "https://Docs.Atlan.com/a"; chunk "4" "https://docs.atlan.com/b"]
  = ["3"; "2"; "4"; "1"].
Proof. vm_compute. reflexivity. Qed.

(** * Further properties of the code *)

(** ** Facts on strings *)

Lemma str_app_cons (a : ascii) (s t : string) : String a s +:+ t = String a (s +:+ t).
Proof. reflexivity. Qed.

Lemma str_app_nil_l (s : string) : EmptyString +:+ s = s.
Proof. reflexivity. Qed.

Lemma str_app_nil_r (s : string) : s +:+ EmptyString = s.
Proof. induction s as [|a s IH]; [done |]. by rewrite str_app_cons, IH. Qed.

Lemma str_app_assoc (a b c : string) : (a +:+ b) +:+ c = a +:+ (b +:+ c).
Proof. induction a as [|x a IH]; [done |]. by rewrite !str_app_cons, IH. Qed.

Lemma str_length_app (a b : string) :
  String.length (a +:+ b) = String.length a + String.length b.
Proof. induction a as [|x a IH]; [done |]. rewrite str_app_cons. simpl. by rewrite IH. Qed.

Lemma prefix_nil (s : string) : String.prefix EmptyString s = true.
Proof. by destruct s. Qed.

Lemma prefix_iff (p s : string) : String.prefix p s = true ↔ is_prefix p s.
Proof.
  unfold is_prefix. revert s. induction p as [|c p IH]; intros s.
  - rewrite prefix_nil. split; [by exists s | done].
  - destruct s as [|a s].
    + split; [done | by intros [t ?]].
    + rewrite prefix_cons. destruct (ascii_dec c a) as [->|Hne].
      * rewrite IH. split; intros [t Ht]; exists t.
        -- by rewrite str_app_cons, <- Ht.
        -- rewrite str_app_cons in Ht. by injection Ht.
      * split; [done |]. intros [t Ht]. rewrite str_app_cons in Ht. by injection Ht.
Qed.

Lemma find_eq (sub s : string) :
  Py.find sub s
  = if String.prefix sub s then Some 0
    else match s with
         | EmptyString => None
         | String _ s' => S <$> Py.find sub s'
         end.
Proof. by destruct s. Qed.

(** [find] returns the place of an occurrence, and the first one. *)
Lemma find_Some (sub s : string) (i : nat) :
  Py.find sub s = Some i →
  (∃ u v, s = u +:+ sub +:+ v ∧ String.length u = i)
  ∧ ∀ u v, s = u +:+ sub +:+ v → (i ≤ String.length u)%nat.
Proof.
  revert i. induction s as [|a s IH]; intros i; rewrite find_eq.
  - destruct (String.prefix sub EmptyString) eqn:Hp; [| done].
    intros [= <-]. apply prefix_iff in Hp as [t Ht].
    split; [by exists EmptyString, t | intros; lia].
  - destruct (String.prefix sub (String a s)) eqn:Hp.
    + intros [= <-]. apply prefix_iff in Hp as [t Ht].
      split; [by exists EmptyString, t | intros; lia].
    + destruct (Py.find sub s) as [j|] eqn:Hj; [| done].
      intros [= <-]. destruct (IH j eq_refl) as [(u & v & -> & Hlen) Hleast].
      split.
      * exists (String a u), v. by rewrite str_app_cons, <- Hlen.
      * intros [|b u'] v' Heq.
        -- rewrite str_app_nil_l in Heq.
           assert (String.prefix sub (String a (u +:+ sub +:+ v)) = true) as Hp'
             by (apply prefix_iff; by exists v').
           congruence.
        -- rewrite str_app_cons in Heq. injection Heq as -> Heq.
           specialize (Hleast _ _ Heq). simpl. lia.
Qed.

Lemma find_None (sub s u v : string) : Py.find sub s = None → s ≠ u +:+ sub +:+ v.
Proof.
  revert u. induction s as [|a s IH]; intros u; rewrite find_eq.
  - destruct (String.prefix sub EmptyString) eqn:Hp; [done |].
    intros _ Heq. destruct u; [| done].
    rewrite str_app_nil_l in Heq.
    assert (String.prefix sub EmptyString = true) by (apply prefix_iff; by exists v).
    congruence.
  - destruct (String.prefix sub (String a s)) eqn:Hp; [done |].
    destruct (Py.find sub s) eqn:Hj; [done |].
    intros _ Heq. destruct u as [|b u].
    + rewrite str_app_nil_l in Heq.
      assert (String.prefix sub (String a s) = true) by (apply prefix_iff; by exists v).
      congruence.
    + rewrite str_app_cons in Heq. injection Heq as -> Heq. by apply (IH u eq_refl).
Qed.

Lemma contains_iff (sub s : string) : Py.contains sub s = true ↔ occurs sub s.
Proof.
  unfold Py.contains, occurs. destruct (Py.find sub s) as [i|] eqn:Hf.
  - apply find_Some in Hf as [(u & v & -> & _) _]. split; [by eauto | done].
  - split; [done |]. intros (u & v & Heq). by apply find_None with (u := u) (v := v) in Hf.
Qed.

Lemma contains_false (sub s : string) : Py.contains sub s = false ↔ ¬ occurs sub s.
Proof. rewrite <- contains_iff. by destruct (Py.contains sub s). Qed.

Lemma occurs_app_l (sub s t : string) : occurs sub s → occurs sub (s +:+ t).
Proof.
  intros (u & v & ->). exists u, (v +:+ t). by rewrite !str_app_assoc.
Qed.

Lemma occurs_app_r (sub s t : string) : occurs sub s → occurs sub (t +:+ s).
Proof.
  intros (u & v & ->). exists (t +:+ u), v. by rewrite !str_app_assoc.
Qed.

Lemma occurs_refl (s : string) : occurs s s.
Proof. exists EmptyString, EmptyString. by rewrite str_app_nil_l, str_app_nil_r. Qed.

Lemma is_prefix_trans (a b c : string) : is_prefix a b → is_prefix b c → is_prefix a c.
Proof. intros [t ->] [t' ->]. exists (t +:+ t'). by rewrite str_app_assoc. Qed.

Lemma is_prefix_length (p s : string) :
  is_prefix p s → (String.length p ≤ String.length s)%nat.
Proof. intros [t ->]. rewrite str_length_app. lia. Qed.

Lemma is_prefix_same_length (p s : string) :
  is_prefix p s → String.length p = String.length s → p = s.
Proof.
  intros [t ->]. rewrite str_length_app. intros Hl.
  destruct t; [by rewrite str_app_nil_r | simpl in Hl; lia].
Qed.

Lemma slice_to_from (n : nat) (s : string) : s = Py.slice_to n s +:+ Py.slice_from n s.
Proof.
  revert s. induction n as [|n IH]; intros [|a s]; try done.
  simpl. rewrite str_app_cons. by rewrite <- IH.
Qed.

Lemma slice_to_length (n : nat) (s : string) : (String.length (Py.slice_to n s) ≤ n)%nat.
Proof.
  revert s. induction n as [|n IH]; intros [|a s]; simpl; try lia.
  specialize (IH s). lia.
Qed.

(** The white space at the start of a text takes at most three bytes. *)
Lemma space_len_le (s : string) : (Py.space_len s ≤ 3)%nat.
Proof.
  destruct s as [|c [|c1 [|c2 r]]]; unfold Py.space_len; cbv zeta;
    repeat match goal with |- context [if ?b then _ else _] => destruct b end; lia.
Qed.

Lemma space_len_nl (s : string) : Py.space_len (String (ascii_of_nat 10) s) = 1.
Proof. reflexivity. Qed.

Lemma space_len_tick (s : string) : Py.space_len (String "`" s) = 0.
Proof. destruct s as [|c1 [|c2 r]]; reflexivity. Qed.

Lemma isspace_long (s : string) : (4 ≤ String.length s)%nat → Py.isspace s = false.
Proof.
  intros Hlen. destruct s as [|a s]; [done |].
  unfold Py.isspace. apply Nat.eqb_neq.
  pose proof (space_len_le (String a s)). lia.
Qed.

Lemma rstrip_cons (a : ascii) (s : string) :
  Py.rstrip (String a s)
  = if Py.isspace (String a (Py.rstrip s)) then EmptyString else String a (Py.rstrip s).
Proof. reflexivity. Qed.

Lemma lstrip_go_cons (k : nat) (a : ascii) (s : string) :
  Py.lstrip_go k (String a s)
  = match k with
    | S k' => Py.lstrip_go k' s
    | O => match Py.space_len (String a s) with
           | S k' => Py.lstrip_go k' s
           | O => String a s
           end
    end.
Proof. reflexivity. Qed.

Lemma lstrip_go_nil (k : nat) : Py.lstrip_go k EmptyString = EmptyString.
Proof. by destruct k. Qed.

Lemma rstrip_prefix (s : string) : is_prefix (Py.rstrip s) s.
Proof.
  induction s as [|a s [t IH]]; [by exists EmptyString |].
  rewrite rstrip_cons. destruct (Py.isspace _).
  - by exists (String a s).
  - exists t. rewrite str_app_cons. by rewrite <- IH.
Qed.

Lemma lstrip_go_suffix (k : nat) (s : string) : ∃ u, s = u +:+ Py.lstrip_go k s.
Proof.
  revert k. induction s as [|a s IH]; intros k.
  { exists EmptyString. by rewrite lstrip_go_nil. }
  assert (Hdrop : ∀ k', ∃ u, String a s = u +:+ Py.lstrip_go k' s).
  { intros k'. destruct (IH k') as [u Hu]. exists (String a u).
    rewrite str_app_cons. by rewrite <- Hu. }
  rewrite lstrip_go_cons. destruct k as [|k]; [| apply Hdrop].
  destruct (Py.space_len (String a s)); [by exists EmptyString | apply Hdrop].
Qed.

Lemma lstrip_suffix (s : string) : ∃ u, s = u +:+ Py.lstrip s.
Proof. apply lstrip_go_suffix. Qed.

Lemma occurs_strip (sub s : string) : occurs sub (Py.strip s) → occurs sub s.
Proof.
  unfold Py.strip. intros H.
  destruct (rstrip_prefix s) as [t Ht]. rewrite Ht.
  apply occurs_app_l.
  destruct (lstrip_suffix (Py.rstrip s)) as [u Hu]. rewrite Hu.
  by apply occurs_app_r.
Qed.

Lemma lower_app (a b : string) : Py.lower (a +:+ b) = Py.lower a +:+ Py.lower b.
Proof. induction a as [|x a IH]; [done |]. rewrite str_app_cons. simpl. by rewrite IH, str_app_cons. Qed.

Lemma lower_length (s : string) : String.length (Py.lower s) = String.length s.
Proof. induction s as [|x s IH]; [done |]. simpl. by rewrite IH. Qed.

Lemma lower_ascii_idemp (c : ascii) : Py.lower_ascii (Py.lower_ascii c) = Py.lower_ascii c.
Proof. destruct c as [[] [] [] [] [] [] [] []]; vm_compute; reflexivity. Qed.

Lemma lower_idemp (s : string) : Py.lower (Py.lower s) = Py.lower s.
Proof. induction s as [|x s IH]; [done |]. simpl. by rewrite lower_ascii_idemp, IH. Qed.

Lemma is_prefix_lower (p s : string) : is_prefix p s → is_prefix (Py.lower p) (Py.lower s).
Proof. intros [t ->]. exists (Py.lower t). apply lower_app. Qed.

(** ** More on the post-processing of the answer *)

Lemma cut_index_Some (ms : list string) (s : string) (i : nat) :
  cut_index ms s = Some i → ∃ m, m ∈ ms ∧ Py.find (Py.lower m) (Py.lower s) = Some i.
Proof.
  induction ms as [|m ms IH]; simpl; [done |].
  destruct (Py.find (Py.lower m) (Py.lower s)) as [j|] eqn:Hj.
  - intros [= <-]. exists m. split; [left | done].
  - intros (m' & ? & ?)%IH. exists m'. split; [by right | done].
Qed.

Lemma cut_index_bound (s : string) (i : nat) :
  cut_index markers s = Some i → (i < String.length s)%nat.
Proof.
  intros (m & Hm & Hf)%cut_index_Some.
  apply find_Some in Hf as [(u & v & Heq & <-) _].
  apply (f_equal String.length) in Heq.
  rewrite lower_length, !str_length_app, lower_length in Heq.
  assert (0 < String.length m)%nat; [| lia].
  unfold markers in Hm.
  repeat (apply elem_of_cons in Hm as [-> | Hm]; [vm_compute; lia |]).
  by apply elem_of_nil in Hm.
Qed.

Lemma strip_sources_prefix (s : string) : is_prefix (strip_sources_from_answer s) s.
Proof.
  unfold strip_sources_from_answer.
  destruct s as [|a s]; [by exists EmptyString |]. cbn [Py.truthy negb].
  destruct (cut_index markers (String a s)) as [i|].
  - eapply is_prefix_trans; [apply rstrip_prefix |].
    exists (Py.slice_from i (String a s)). apply slice_to_from.
  - exists EmptyString. by rewrite str_app_nil_r.
Qed.

(** X1: [strip_sources_from_answer] only ever removes an end of the
    answer: its result is an initial part of the answer; and for an answer
    in ASCII it is the whole answer exactly when none of the markers occurs
    in the answer, in any letter case. *)
Theorem strip_sources_removes_a_suffix (answer_text : string) :
  is_prefix (strip_sources_from_answer answer_text) answer_text
  ∧ (Py.isascii answer_text = true →
     (strip_sources_from_answer answer_text = answer_text
      ↔ cut_index markers answer_text = None)).
Proof.
  split; [apply strip_sources_prefix |]. intros _.
  split; [| apply strip_sources_no_marker].
  intros Heq. destruct (cut_index markers answer_text) as [i|] eqn:Hcut; [| done].
  exfalso. pose proof (cut_index_bound _ _ Hcut) as Hlt.
  rewrite (strip_sources_cut _ _ Hcut) in Heq.
  pose proof (is_prefix_length _ _ (rstrip_prefix (Py.slice_to i answer_text))) as H1.
  pose proof (slice_to_length i answer_text) as H2.
  rewrite Heq in H1. lia.
Qed.

Lemma strip_sources_removes_a_suffix_witness :
  strip_sources_from_answer "Enable SSO." = "Enable SSO."
  ↔ cut_index markers "Enable SSO." = None.
Proof.
  apply (proj2 (strip_sources_removes_a_suffix "Enable SSO.")). reflexivity.
Defined.

(** X2: for an answer in ASCII, the result of [strip_sources_from_answer]
    has no line that begins with [Sources:], in any letter case: the marker
    that the loop tries first never survives. *)
Theorem strip_sources_removes_sources_line (answer_text : string) :
  Py.isascii answer_text = true →
  Py.contains (Py.lower (Py.nl +:+ "Sources:"))
              (Py.lower (strip_sources_from_answer answer_text)) = false.
Proof.
  intros _.
  apply contains_false. intros (u & v & Hocc).
  destruct (strip_sources_prefix answer_text) as [t Ht].
  assert (Hs : Py.lower answer_text
               = u +:+ Py.lower (Py.nl +:+ "Sources:") +:+ (v +:+ Py.lower t)).
  { rewrite Ht at 1. rewrite lower_app, Hocc. by rewrite !str_app_assoc. }
  destruct (Py.find (Py.lower (Py.nl +:+ "Sources:")) (Py.lower answer_text))
    as [idx|] eqn:Hf.
  - assert (Hcut : cut_index markers answer_text = Some idx).
    { unfold markers. cbn [cut_index]. by rewrite Hf. }
    apply find_Some in Hf as [_ Hleast].
    specialize (Hleast _ _ Hs).
    rewrite (strip_sources_cut _ _ Hcut) in Hocc.
    pose proof (is_prefix_length _ _ (rstrip_prefix (Py.slice_to idx answer_text))) as H1.
    pose proof (slice_to_length idx answer_text) as H2.
    apply (f_equal String.length) in Hocc.
    rewrite lower_length, !str_length_app in Hocc.
    assert (0 < String.length (Py.lower (Py.nl +:+ "Sources:")))%nat
      by (vm_compute; lia).
    lia.
  - by apply find_None with (u := u) (v := v +:+ Py.lower t) in Hf.
Qed.

Lemma strip_sources_removes_sources_line_witness :
  Py.contains (Py.lower (Py.nl +:+ "Sources:"))
              (Py.lower (strip_sources_from_answer
                           ("Enable SSO." +:+ Py.nl +:+ "SOURCES: a" +:+ Py.nl
                            +:+ "sources: b")))
  = false.
Proof.
  apply strip_sources_removes_sources_line. reflexivity.
Defined.

(** X3: an answer without a line break is returned as it is, whatever it
    says about sources. *)
Theorem strip_sources_keeps_one_line (answer_text : string) :
  Py.contains Py.nl answer_text = false →
  strip_sources_from_answer answer_text = answer_text.
Proof. apply strip_sources_single_line. Qed.

Lemma strip_sources_keeps_one_line_witness :
  strip_sources_from_answer "Atlan is not open source: see the sources: a, b."
  = "Atlan is not open source: see the sources: a, b.".
Proof.
  apply strip_sources_keeps_one_line. vm_compute. reflexivity.
Defined.

(** ** More on [query] and [get_rag_answer] *)

(** X4: [query] never raises: it returns the answer of [get_rag_answer]
    for the question (with the context appended, when there is one), the
    text of its error behind a fixed sentence, or, when [get_rag_answer]
    raises, an apology that ends with the text of the exception; the calls
    made are those of [get_rag_answer]. *)
Theorem query_never_raises (L : Libs) (self : RAGPipeline) (question context : string)
    (w : World) :
  ∃ reply,
    query L self question context w
    = (Returns reply, (get_rag_answer L self (enhanced_question question context) w).2)
    ∧ match (get_rag_answer L self (enhanced_question question context) w).1 with
      | Returns (RAGAnswer answer _ _) => reply = answer
      | Returns (RAGError error) =>
          reply = "I encountered an issue while processing your request: " +:+ error
      | Raises e =>
          reply = "I'm sorry, I encountered an error while processing your question: "
                  +:+ exn_str e
      end.
Proof.
  unfold query, try_except, bind. fold (enhanced_question question context).
  destruct (get_rag_answer L self (enhanced_question question context) w)
    as [[[answer srcs n|error]|e] w']; simpl; eauto.
Qed.

(** X5: one question costs at most one retrieval and one call of the
    model, in that order: the calls that [get_rag_answer] adds to the log
    are none (exactly when the vector store is [None]), the retrieval alone,
    or the retrieval followed by one call of the model; nothing on the disk
    changes. *)
Theorem get_rag_answer_calls (L : Libs) (self : RAGPipeline) (q : string) (w : World) :
  fs (get_rag_answer L self q w).2 = fs w
  ∧ ∃ new,
      calls (get_rag_answer L self q w).2 = calls w ++ new
      ∧ (new = [] ∨ new = [EvRetrieve 8 q]
         ∨ ∃ prompt, new = [EvRetrieve 8 q; EvGenerate (llm self) prompt])
      ∧ (new = [] ↔ vector_store self = None).
Proof.
  rewrite get_rag_answer_cases.
  destruct (vector_store self) as [c|]; simpl.
  - destruct (retriever_invoke L _ 8 q) as [[|d docs]|e]; simpl.
    + split; [done |]. exists [EvRetrieve 8 q]. split; [done |]. split; [by auto |]. done.
    + assert (∀ o : Outcome RAGResult * World,
                o.2 = logged (EvGenerate (llm self) (rag_prompt L (d :: docs) q))
                             (logged (EvRetrieve 8 q) w) →
                fs o.2 = fs w
                ∧ ∃ new, calls o.2 = calls w ++ new
                  ∧ (new = [] ∨ new = [EvRetrieve 8 q]
                     ∨ ∃ prompt, new = [EvRetrieve 8 q; EvGenerate (llm self) prompt])
                  ∧ (new = [] ↔ Some c = None)) as Hgen.
      { intros o ->. split; [done |].
        exists [EvRetrieve 8 q; EvGenerate (llm self) (rag_prompt L (d :: docs) q)].
        split; [simpl; by rewrite <- app_assoc |]. split; [by eauto |]. done. }
      apply Hgen.
      destruct (generate_content L _ _ _) as [response|e]; [| done].
      by destruct (text response).
    + split; [done |]. exists [EvRetrieve 8 q]. split; [done |]. split; [by auto |]. done.
  - split; [done |]. exists []. split; [by rewrite app_nil_r |]. split; [by auto | done].
Qed.

Lemma occurs_concat (sep x : string) (l : list string) :
  x ∈ l → occurs x (String.concat sep l).
Proof.
  induction l as [|y l IH]; [by intros ?%elem_of_nil |].
  intros Hx. destruct l as [|z l].
  - apply list_elem_of_singleton in Hx as ->. apply occurs_refl.
  - change (String.concat sep (y :: z :: l))
      with (y +:+ sep +:+ String.concat sep (z :: l)).
    apply elem_of_cons in Hx as [-> | Hx].
    + apply occurs_app_l, occurs_refl.
    + by apply occurs_app_r, occurs_app_r, IH.
Qed.

Lemma rag_prompt_occurs (L : Libs) (docs : list Document) (q : string) :
  occurs q (rag_prompt L docs q)
  ∧ ∀ d, d ∈ docs → occurs (page_content d) (rag_prompt L docs q).
Proof.
  unfold rag_prompt, RAG_PROMPT_TEMPLATE_format. split.
  - apply occurs_app_r, occurs_app_r, occurs_app_r, occurs_app_l, occurs_refl.
  - intros d Hd. apply occurs_app_r, occurs_app_l, occurs_concat.
    apply list_elem_of_fmap. exists d. split; [done |].
    by rewrite sorted_Permutation.
Qed.

(** X6: when the model is called, nothing that was retrieved is left out
    of the prompt: the prompt contains the question and the text of every
    retrieved chunk. *)
Theorem prompt_holds_every_chunk (L : Libs) (self : RAGPipeline) (c : Chroma)
    (q : string) (w : World) (docs : list Document) :
  vector_store self = Some c →
  retriever_invoke L (logged (EvRetrieve 8 q) w) 8 q = Returns docs →
  docs ≠ [] →
  ∃ prompt,
    calls (get_rag_answer L self q w).2
    = calls w ++ [EvRetrieve 8 q; EvGenerate (llm self) prompt]
    ∧ Py.contains q prompt = true
    ∧ ∀ d, d ∈ docs → Py.contains (page_content d) prompt = true.
Proof.
  intros Hvs Hr Hne. exists (rag_prompt L docs q).
  destruct (rag_prompt_occurs L docs q) as [Hq Hd].
  split; [| split; [by apply contains_iff | intros d ?; by apply contains_iff, Hd]].
  rewrite get_rag_answer_cases, Hvs. simpl. rewrite Hr.
  destruct docs as [|d docs]; [done |].
  assert (∀ o : Outcome RAGResult * World,
            o.2 = logged (EvGenerate (llm self) (rag_prompt L (d :: docs) q))
                         (logged (EvRetrieve 8 q) w) →
            calls o.2 = calls w ++ [EvRetrieve 8 q;
                                    EvGenerate (llm self) (rag_prompt L (d :: docs) q)])
    as Hgen by (intros o ->; simpl; by rewrite <- app_assoc).
  apply Hgen.
  destruct (generate_content L _ _ _) as [response|e]; [| done].
  by destruct (text response).
Qed.

Lemma prompt_holds_every_chunk_witness :
  ∃ prompt,
    calls (get_rag_answer
             (fixed_libs open_creating
                (Returns [chunk "Go to Settings > SSO." "https://docs.atlan.com/sso"])
                (Returns (mkResponse (Returns "ok"))))
             loaded_pipeline "How do I enable SSO?" empty_world).2
    = calls empty_world
      ++ [EvRetrieve 8 "How do I enable SSO?"; EvGenerate (llm loaded_pipeline) prompt]
    ∧ Py.contains "How do I enable SSO?" prompt = true
    ∧ ∀ d, d ∈ [chunk "Go to Settings > SSO." "https://docs.atlan.com/sso"] →
           Py.contains (page_content d) prompt = true.
Proof.
  apply (prompt_holds_every_chunk _ loaded_pipeline (mkChroma "data/chroma_db")).
  - reflexivity.
  - reflexivity.
  - discriminate.
Defined.

Lemma keep_first_sublist (seen l : list string) : keep_first seen l `sublist_of` l.
Proof.
  revert seen. induction l as [|x l IH]; intros seen; simpl; [done |].
  destruct (bool_decide (x ∈ seen)).
  - by apply sublist_cons.
  - by apply sublist_skip.
Qed.

Lemma rag_sources_sublist (L : Libs) (docs : list Document) :
  rag_sources L docs
  `sublist_of` filter (λ s, s ≠ "N/A" ∧ s ≠ EmptyString)
                      (source_of <$> sorted key_ltb (source_key L) docs).
Proof.
  rewrite rag_sources_eq.
  etrans; [apply sublist_take | apply keep_first_sublist].
Qed.

Lemma source_of_Some (d : Document) (s : string) :
  source_of d = s → s ≠ "N/A" → metadata d !! "source" = Some s.
Proof.
  unfold source_of. destruct (metadata d !! "source"); simpl; congruence.
Qed.

Lemma rag_sources_from_docs (L : Libs) (docs : list Document) (s : string) :
  s ∈ rag_sources L docs →
  s ≠ EmptyString ∧ s ≠ "N/A" ∧ ∃ d, d ∈ docs ∧ metadata d !! "source" = Some s.
Proof.
  intros Hs. eapply elem_of_sublist in Hs; [| apply rag_sources_sublist].
  apply list_elem_of_filter in Hs as [[Hna Hne] Hs].
  apply list_elem_of_fmap in Hs as (d & Hd & Hin).
  rewrite sorted_Permutation in Hin.
  repeat split; try done. exists d. split; [done |].
  by apply source_of_Some.
Qed.

Lemma rag_sources_length (L : Libs) (docs : list Document) :
  (length (rag_sources L docs) ≤ length docs)%nat.
Proof.
  etrans; [apply sublist_length, rag_sources_sublist |].
  etrans; [apply sublist_length, sublist_filter |].
  by rewrite length_fmap, sorted_Permutation.
Qed.

(** X7: every source that [get_rag_answer] returns is the [source] entry
    of a retrieved chunk, and is neither empty nor [N/A]; when the model
    was called, [context_used] is the number of retrieved chunks, which is
    positive and not smaller than the number of sources. *)
Theorem sources_come_from_chunks (L : Libs) (self : RAGPipeline) (q : string)
    (w w' : World) (answer : string) (srcs : list string) (n : option nat) :
  get_rag_answer L self q w = (Returns (RAGAnswer answer srcs n), w') →
  ∃ docs,
    retriever_invoke L (logged (EvRetrieve 8 q) w) 8 q = Returns docs
    ∧ (∀ s, s ∈ srcs →
         s ≠ EmptyString ∧ s ≠ "N/A"
         ∧ ∃ d, d ∈ docs ∧ metadata d !! "source" = Some s)
    ∧ (length srcs ≤ length docs)%nat
    ∧ (n = None ∧ docs = [] ∨ n = Some (length docs) ∧ docs ≠ []).
Proof.
  rewrite get_rag_answer_cases.
  destruct (vector_store self) as [c|]; [| done]. simpl.
  destruct (retriever_invoke L _ 8 q) as [docs|e] eqn:Hr; [| done].
  intros H. exists docs. split; [done |].
  destruct docs as [|d docs].
  - injection H as <- <- <- <-.
    split; [by intros s ?%elem_of_nil |]. split; [done | by left].
  - destruct (generate_content L _ _ _) as [response|e]; [| done].
    destruct (text response) as [t|e]; [| done].
    injection H as <- <- <- <-.
    split; [apply rag_sources_from_docs |].
    split; [apply rag_sources_length | by right].
Qed.

Lemma sources_come_from_chunks_witness :
  ∃ docs,
    Returns [chunk "a" "https://docs.atlan.com/sso"; chunk "b" "N/A"; chunk "c" EmptyString]
    = Returns docs
    ∧ (∀ s, s ∈ ["https://docs.atlan.com/sso"] →
         s ≠ EmptyString ∧ s ≠ "N/A"
         ∧ ∃ d, d ∈ docs ∧ metadata d !! "source" = Some s)
    ∧ (length ["https://docs.atlan.com/sso"] ≤ length docs)%nat
    ∧ (Some 3 = None ∧ docs = [] ∨ Some 3 = Some (length docs) ∧ docs ≠ []).
Proof.
  eapply (sources_come_from_chunks
            (fixed_libs open_creating
               (Returns [chunk "a" "https://docs.atlan.com/sso"; chunk "b" "N/A";
                         chunk "c" EmptyString])
               (Returns (mkResponse (Returns "ok"))))
            loaded_pipeline "q" empty_world).
  vm_compute. reflexivity.
Defined.

Lemma StronglySorted_sublist {A} (R : relation A) (l1 l2 : list A) :
  l1 `sublist_of` l2 → StronglySorted R l2 → StronglySorted R l1.
Proof.
  induction 1 as [|x l1 l2 Hsub IH|x l1 l2 Hsub IH]; intros Hs; [done | |].
  - inversion Hs as [|? ? Hl2 Hx]; subst. constructor; [by apply IH |].
    rewrite Forall_forall in *. intros y Hy. apply Hx.
    by eapply elem_of_sublist.
  - inversion Hs; subst. by apply IH.
Qed.

Lemma StronglySorted_Forall {A} (R : relation A) (P : A → Prop) (l : list A) :
  StronglySorted R l → Forall P l → StronglySorted (λ x y, P x ∧ P y ∧ R x y) l.
Proof.
  induction 1 as [|x l Hl IH Hx]; intros HP; [constructor |].
  inversion HP as [|? ? HPx HPl]; subst.
  constructor; [by apply IH |].
  rewrite Forall_forall in *. intros y Hy. auto.
Qed.

Lemma filter_fmap_list {A B} (f : A → B) (P : B → Prop) `{∀ y, Decision (P y)}
    (l : list A) :
  filter P (f <$> l) = f <$> filter (λ x, P (f x)) l.
Proof.
  induction l as [|x l IH]; [done |].
  rewrite fmap_cons, !filter_cons.
  destruct (decide (P (f x))); simpl; by rewrite IH.
Qed.

Lemma source_key_url_key (L : Libs) (d : Document) :
  source_of d ≠ "N/A" → source_key L d = url_key L (source_of d).
Proof.
  unfold source_of, source_key, url_key.
  destruct (metadata d !! "source") as [s|]; simpl; [| done].
  intros _. by destruct s.
Qed.

Lemma rag_sources_sorted (L : Libs) (docs : list Document) :
  StronglySorted (λ s t, key_ltb (url_key L t) (url_key L s) = false) (rag_sources L docs).
Proof.
  eapply StronglySorted_sublist; [apply rag_sources_sublist |].
  rewrite filter_fmap_list.
  eapply StronglySorted_fmap;
    [| apply (StronglySorted_Forall (key_le key_ltb (source_key L))
                (λ d, source_of d ≠ "N/A" ∧ source_of d ≠ EmptyString))].
  - intros x y ([Hx _] & [Hy _] & Hle). unfold key_le in Hle.
    by rewrite <- !source_key_url_key.
  - eapply StronglySorted_sublist; [apply sublist_filter |].
    apply sorted_StronglySorted; [apply key_ltb_le_trans | apply key_ltb_total].
  - apply Forall_forall. intros d Hd. by apply list_elem_of_filter in Hd as [? _].
Qed.

(** X8: the sources that [get_rag_answer] returns are in the order of
    priority, whatever [str.lower] is: of two sources, the earlier one has
    the smaller tier (0 when its lower-cased URL contains one of the two
    official domains, 1 otherwise), or the same tier and a lower-cased URL
    that is not greater; so no source of an official domain is listed after
    another source. *)
Theorem sources_in_priority_order (L : Libs) (self : RAGPipeline) (q : string)
    (w w' : World) (answer : string) (srcs : list string) (n : option nat)
    (i j : nat) (s t : string) :
  get_rag_answer L self q w = (Returns (RAGAnswer answer srcs n), w') →
  i < j → srcs !! i = Some s → srcs !! j = Some t →
  (url_key L s).1 < (url_key L t).1
  ∨ ((url_key L s).1 = (url_key L t).1 ∧ String.le (str_lower L s) (str_lower L t)).
Proof.
  rewrite get_rag_answer_cases.
  destruct (vector_store self) as [c|]; [| done]. simpl.
  destruct (retriever_invoke L _ 8 q) as [[|d docs]|e]; [| | done].
  - by intros [= <- <- <- <-].
  - destruct (generate_content L _ _ _) as [response|e]; [| done].
    destruct (text response) as [txt|e]; [| done].
    intros [= <- <- <- <-] Hij Hi Hj.
    pose proof (StronglySorted_lookup _ _ _ _ _ _ (rag_sources_sorted L (d :: docs)) Hij Hi Hj)
      as Hle.
    apply key_ltb_false in Hle.
    assert (Hk : ∀ u, (url_key L u).2 = str_lower L u)
      by (intros u; unfold url_key; by destruct (_ || _)).
    by rewrite !Hk in Hle.
Qed.

Lemma sources_in_priority_order_witness :
  (url_key ascii_libs "https://developer.atlan.com/sdk").1
  < (url_key ascii_libs "https://blog.example.com/x").1
  ∨ ((url_key ascii_libs "https://developer.atlan.com/sdk").1
     = (url_key ascii_libs "https://blog.example.com/x").1
     ∧ String.le (str_lower ascii_libs "https://developer.atlan.com/sdk")
                 (str_lower ascii_libs "https://blog.example.com/x")).
Proof.
  eapply (sources_in_priority_order
            (fixed_libs open_creating
               (Returns [chunk "a" "https://blog.example.com/x";
                         chunk "b" "https://developer.atlan.com/sdk"])
               (Returns (mkResponse (Returns "ok"))))
            loaded_pipeline "q" empty_world _ "ok" _ _ 0 1).
  - vm_compute. reflexivity.
  - lia.
  - reflexivity.
  - reflexivity.
Defined.

(** ** More on building and loading the index *)

(** X9: a build that fails while the embedding model is loaded leaves the
    directory it has just made, empty, at the index path, and the exception
    leaves [_ensure_local_vector_store] and the constructor of the pipeline;
    the empty directory does not count as an index: the next call starts
    the build again. *)
Theorem failed_build_leaves_empty_directory (L : Libs) (VECTOR_STORE_PATH : string)
    (w : World) (kb : list KBItem) (e : Exn) :
  store_path (fs w) = NoEntry →
  kb_path (fs w) = KBData kb →
  kb_documents kb ≠ [] →
  split_documents L 1000 100 (kb_documents kb) ≠ [] →
  HuggingFaceEmbeddings L EMBEDDING_MODEL_NAME (build_world VECTOR_STORE_PATH w) = Raises e →
  _ensure_local_vector_store L VECTOR_STORE_PATH w
  = (Raises e, build_world VECTOR_STORE_PATH w)
  ∧ RAGPipeline_init L VECTOR_STORE_PATH w = (Raises e, build_world VECTOR_STORE_PATH w)
  ∧ store_path (fs (build_world VECTOR_STORE_PATH w)) = Directory []
  ∧ ∃ rest,
      calls (_ensure_local_vector_store L VECTOR_STORE_PATH
               (build_world VECTOR_STORE_PATH w)).2
      = calls (build_world VECTOR_STORE_PATH w) ++ EvMakedirs VECTOR_STORE_PATH :: rest.
Proof.
  intros Hstore Hkb Hdocs Hchunks Hemb.
  assert (Hensure : _ensure_local_vector_store L VECTOR_STORE_PATH w
                    = (Raises e, build_world VECTOR_STORE_PATH w)).
  { rewrite ensure_cases, Hstore, Hkb. cbn [loaded_kb].
    destruct kb as [|item kb]; [done |].
    destruct (kb_documents (item :: kb)) as [|d ds]; [done |].
    destruct (split_documents L 1000 100 (d :: ds)) as [|ch chs]; [done |].
    unfold bind at 1. unfold os_makedirs, bind, log, get_world, set_store_path. simpl.
    rewrite Hstore. simpl.
    unfold new_embeddings, bind, log, get_world, lift. simpl.
    unfold build_world, logged, with_store in Hemb. simpl in Hemb.
    rewrite Hkb in Hemb. rewrite Hkb, Hemb. unfold build_world, logged, with_store.
    simpl. by rewrite Hkb. }
  split; [done |]. split.
  { unfold RAGPipeline_init, _load_vector_store. unfold bind at 1 2. by rewrite Hensure. }
  split; [done |]. clear Hemb Hensure.
  rewrite ensure_cases. cbn [build_world logged with_store fs store_path kb_path].
  rewrite Hkb. cbn [loaded_kb].
  destruct kb as [|item kb]; [done |].
  destruct (kb_documents (item :: kb)) as [|d ds]; [done |].
  destruct (split_documents L 1000 100 (d :: ds)) as [|ch chs]; [done |].
  unfold bind at 1. unfold os_makedirs, bind, log, get_world, set_store_path, ret. simpl.
  unfold new_embeddings, bind, log, get_world, lift. simpl.
  destruct (HuggingFaceEmbeddings L _ _) as [[]|e'].
  - unfold from_documents, bind, log, get_world, set_store_path, lift. simpl.
    destruct (Chroma_from_documents L _ _) as [r d']. simpl.
    eexists. destruct r; simpl; rewrite <- !app_assoc; simpl; reflexivity.
  - eexists. simpl. rewrite <- !app_assoc. simpl. reflexivity.
Qed.

Lemma failed_build_leaves_empty_directory_witness :
  store_path (fs (build_world "data/chroma_db" sso_world)) = Directory [].
Proof.
  eapply (failed_build_leaves_empty_directory
            {| split_documents := λ _ _ documents, documents;
               HuggingFaceEmbeddings := λ _ _, Raises (mkExn "OSError" "cannot download the model");
               Chroma_from_documents := λ _ d, (Returns tt, d);
               Chroma_open := open_creating;
               retriever_invoke := λ _ _ _, Returns [];
               generate_content := λ _ _ _, Returns (mkResponse (Returns "ok"));
               str_lower := Py.lower |}
            "data/chroma_db" sso_world).
  - reflexivity.
  - reflexivity.
  - vm_compute. discriminate.
  - vm_compute. discriminate.
  - reflexivity.
Defined.

(** ** The build script and the crawler *)

Lemma has_content_Some (item : KBItem) :
  has_content item = true →
  ∃ content, item !! "content" = Some content ∧ content ≠ EmptyString.
Proof.
  unfold has_content. destruct (item !! "content") as [[|a s]|]; simpl; try done.
  intros _. by eexists.
Qed.

Lemma create_documents_agree (data : list KBItem) :
  (∀ item, item ∈ data → has_content item = true → is_Some (item !! "url")) →
  create_documents_from_data data = Returns (kb_documents data).
Proof.
  induction data as [|item data IH]; intros Hurl; [done |].
  cbn [create_documents_from_data]. unfold kb_documents. cbn [omap list_omap].
  fold (kb_documents data). fold (has_content item).
  rewrite IH by (intros i Hi; apply Hurl; by right).
  destruct (has_content item) eqn:Hc; [| done].
  destruct (has_content_Some item Hc) as (content & Hcontent & _).
  destruct (Hurl item (list_elem_of_here _ _) Hc) as [url Hu].
  unfold getitem. by rewrite Hcontent, Hu.
Qed.

Lemma create_documents_raises (data : list KBItem) (e : Exn) :
  create_documents_from_data data = Raises e →
  e = mkExn "KeyError" "'url'"
  ∧ ∃ item, item ∈ data ∧ has_content item = true ∧ item !! "url" = None.
Proof.
  induction data as [|item data IH]; [done |].
  cbn [create_documents_from_data]. fold (has_content item).
  destruct (has_content item) eqn:Hc.
  - destruct (has_content_Some item Hc) as (content & Hcontent & _).
    unfold getitem. rewrite Hcontent.
    destruct (item !! "url") as [url|] eqn:Hu.
    + destruct (create_documents_from_data data) as [documents|e'] eqn:Hrest; [done |].
      intros [= <-]. destruct (IH eq_refl) as (He & i & Hi & ? & ?).
      split; [done |]. exists i. split; [by right | done].
    + intros [= <-]. split; [done |]. exists item. split; [left | done].
  - intros (He & i & Hi & ? & ?)%IH.
    split; [done |]. exists i. split; [by right | done].
Qed.

Lemma create_documents_missing_url (data : list KBItem) (item : KBItem) :
  item ∈ data → has_content item = true → item !! "url" = None →
  ∃ e, create_documents_from_data data = Raises e.
Proof.
  intros Hitem Hc Hu. induction data as [|i data IH]; [by apply elem_of_nil in Hitem |].
  cbn [create_documents_from_data]. fold (has_content i).
  apply elem_of_cons in Hitem as [<- | Hitem].
  - rewrite Hc. destruct (has_content_Some item Hc) as (content & Hcontent & _).
    unfold getitem. rewrite Hcontent, Hu. by eauto.
  - destruct (IH Hitem) as [e He]. rewrite He.
    destruct (has_content i); [| by eauto].
    destruct (getitem i "content"); [| by eauto].
    destruct (getitem i "url"); by eauto.
Qed.

(** X11: on a knowledge base in which every record with content has a
    [url], the build script makes the documents that the pipeline makes
    when it builds the index itself. *)
Theorem builders_make_the_same_documents (data : list KBItem) :
  (∀ item, item ∈ data → has_content item = true → is_Some (item !! "url")) →
  create_documents_from_data data = Returns (kb_documents data).
Proof. apply create_documents_agree. Qed.

Lemma builders_make_the_same_documents_witness :
  create_documents_from_data
    [ {[ "url" := "https://docs.atlan.com/a"; "content" := "A" ]};
      {[ "content" := EmptyString ]} ]
  = Returns (kb_documents
               [ {[ "url" := "https://docs.atlan.com/a"; "content" := "A" ]};
                 {[ "content" := EmptyString ]} ]).
Proof.
  apply builders_make_the_same_documents.
  intros item Hitem Hc.
  apply elem_of_cons in Hitem as [-> | Hitem]; [by eexists |].
  apply list_elem_of_singleton in Hitem as ->. vm_compute in Hc. discriminate.
Defined.

(** X12: [create_documents_from_data] raises exactly when some record
    with content has no [url], and then what it raises is the [KeyError] of
    [url]; the pipeline indexes such a record with an empty source
    instead. *)
Theorem create_documents_raises_on_missing_url (data : list KBItem) :
  ((∃ e, create_documents_from_data data = Raises e)
   ↔ ∃ item, item ∈ data ∧ has_content item = true ∧ item !! "url" = None)
  ∧ (∀ e, create_documents_from_data data = Raises e → e = mkExn "KeyError" "'url'")
  ∧ (∀ item, item ∈ data → has_content item = true → item !! "url" = None →
       ∃ d, d ∈ kb_documents data ∧ metadata d !! "source" = Some EmptyString).
Proof.
  split; [split |].
  - intros [e He]. by apply create_documents_raises in He as [_ ?].
  - intros (item & Hitem & Hc & Hu). by eapply create_documents_missing_url.
  - split; [intros e He; by apply create_documents_raises in He as [? _] |].
    intros item Hitem Hc Hu.
    destruct (has_content_Some item Hc) as (content & Hcontent & _).
    exists (mkDocument content {[ "source" := EmptyString ]}).
    split; [| apply lookup_singleton_eq].
    unfold kb_documents. apply list_elem_of_omap. exists item. split; [done |].
    fold (has_content item). by rewrite Hc, Hcontent, Hu.
Qed.

Lemma create_documents_raises_on_missing_url_witness :
  ∃ d, d ∈ kb_documents [ {[ "content" := "text" ]} ]
       ∧ metadata d !! "source" = Some EmptyString.
Proof.
  apply (create_documents_raises_on_missing_url [ {[ "content" := "text" ]} ])
    with (item := {[ "content" := "text" ]}).
  - left.
  - reflexivity.
  - reflexivity.
Defined.

Lemma scrape_all_records (fetch : string → PageFetch) (links : list string)
    (data : list KBItem) (item : KBItem) :
  scrape_all fetch links = Returns data → item ∈ data →
  ∃ link text,
    link ∈ links ∧ fetch link = FetchMain (Some text) ∧ text ≠ EmptyString
    ∧ item = {[ "url" := link; "content" := text ]}.
Proof.
  revert data. induction links as [|link links IH]; intros data; simpl.
  - intros [= <-] ?%elem_of_nil. done.
  - unfold scrape_page_content.
    assert (Hrest : ∀ data', scrape_all fetch links = Returns data' → item ∈ data' →
              ∃ link0 text, link0 ∈ link :: links ∧ fetch link0 = FetchMain (Some text)
                ∧ text ≠ EmptyString ∧ item = {[ "url" := link0; "content" := text ]}).
    { intros data' Hd Hi. destruct (IH data' Hd Hi) as (l0 & t & ? & ? & ? & ?).
      exists l0, t. split; [by right | done]. }
    destruct (fetch link) as [e|e|[text|]] eqn:Hf; try done;
      destruct (scrape_all fetch links) as [rest|e'] eqn:Hs; try done.
    + intros [= <-]. by apply (Hrest rest).
    + rewrite lookup_insert_ne by done. rewrite lookup_singleton_eq. simpl.
      destruct text as [|a text]; simpl.
      * intros [= <-]. by apply (Hrest rest).
      * intros [= <-] [-> | Hi]%elem_of_cons; [| by apply (Hrest rest)].
        exists link, (String a text). split; [left | done].
    + intros [= <-]. by apply (Hrest rest).
Qed.

(** X13: every record that the crawler keeps has the URL of a page it
    fetched and the non-empty text of that page; so on the crawler's output
    the build script does not raise, and it and the pipeline make one
    document for every record. *)
Theorem crawler_output_is_indexable (fetch : string → PageFetch) (links : list string)
    (data : list KBItem) :
  scrape_all fetch links = Returns data →
  (∀ item, item ∈ data →
     ∃ link text,
       link ∈ links ∧ fetch link = FetchMain (Some text) ∧ text ≠ EmptyString
       ∧ item = {[ "url" := link; "content" := text ]})
  ∧ create_documents_from_data data = Returns (kb_documents data)
  ∧ kb_documents data
    = (λ item : KBItem, chunk (default EmptyString (item !! "content"))
                              (default EmptyString (item !! "url"))) <$> data.
Proof.
  intros Hs.
  assert (Hrec : ∀ item, item ∈ data →
            ∃ link text, link ∈ links ∧ fetch link = FetchMain (Some text)
              ∧ text ≠ EmptyString ∧ item = {[ "url" := link; "content" := text ]})
    by (intros item; by apply scrape_all_records).
  split; [done |]. split.
  - apply create_documents_agree. intros item Hitem _.
    destruct (Hrec item Hitem) as (link & text & _ & _ & _ & ->).
    exists link. apply lookup_insert_eq.
  - clear Hs. induction data as [|item data IH]; [done |].
    unfold kb_documents. cbn [omap list_omap]. fold (kb_documents data).
    rewrite fmap_cons, IH by (intros i Hi; apply Hrec; by right).
    destruct (Hrec item (list_elem_of_here _ _)) as (link & text & _ & _ & Hne & ->).
    rewrite lookup_insert_ne by done. rewrite lookup_singleton_eq. simpl.
    by destruct text.
Qed.

Lemma crawler_output_is_indexable_witness :
  create_documents_from_data [ {[ "url" := "https://docs.atlan.com/sso"; "content" := "SSO" ]} ]
  = Returns (kb_documents [ {[ "url" := "https://docs.atlan.com/sso"; "content" := "SSO" ]} ]).
Proof.
  apply (crawler_output_is_indexable
           (λ url, if bool_decide (url = "https://docs.atlan.com/sso")
                   then FetchMain (Some "SSO")
                   else if bool_decide (url = "https://docs.atlan.com/empty")
                        then FetchMain (Some EmptyString)
                        else FetchRequestException (mkExn "HTTPError" "404"))
           ["https://docs.atlan.com/empty"; "https://docs.atlan.com/sso";
            "https://docs.atlan.com/gone"]).
  vm_compute. reflexivity.
Defined.

(** ** The cleaning of the model's response *)

Lemma replace_go_eq (old new : string) (a : ascii) (s : string) :
  Py.replace_go old new 0 (String a s)
  = if String.prefix old (String a s)
    then new +:+ Py.replace_go old new (String.length old - 1) s
    else String a (Py.replace_go old new 0 s).
Proof. reflexivity. Qed.

Lemma replace_go_skip (old new x rest : string) :
  Py.replace_go old new (String.length x) (x +:+ rest) = Py.replace_go old new 0 rest.
Proof.
  induction x as [|a x IH]; [by destruct rest |].
  rewrite str_app_cons. simpl. apply IH.
Qed.

Lemma replace_go_prefix (c : ascii) (old' new rest : string) :
  Py.replace_go (String c old') new 0 (String c old' +:+ rest)
  = new +:+ Py.replace_go (String c old') new 0 rest.
Proof.
  rewrite str_app_cons, replace_go_eq.
  assert (String.prefix (String c old') (String c (old' +:+ rest)) = true) as ->
    by (apply prefix_iff; by exists rest).
  f_equal. simpl. rewrite Nat.sub_0_r. apply replace_go_skip.
Qed.

Lemma contains_cons_eq (sub : string) (a : ascii) (s : string) :
  Py.contains sub (String a s) = String.prefix sub (String a s) || Py.contains sub s.
Proof.
  unfold Py.contains. rewrite find_eq.
  destruct (String.prefix sub (String a s)); [done |].
  by destruct (Py.find sub s).
Qed.

Lemma no_tick_cons (a : ascii) (s : string) :
  Py.contains "`" (String a s) = false → a ≠ "`"%char ∧ Py.contains "`" s = false.
Proof.
  rewrite contains_cons_eq, prefix_cons, orb_false_iff.
  destruct (ascii_dec "`" a) as [<-|Hne].
  - rewrite prefix_nil. by intros [? _].
  - intros [_ ?]. split; [congruence | done].
Qed.

Lemma no_tick_app (u v : string) :
  Py.contains "`" u = false → Py.contains "`" v = false →
  Py.contains "`" (u +:+ v) = false.
Proof.
  induction u as [|a u IH]; [done |].
  intros [Ha Hu]%no_tick_cons Hv. rewrite str_app_cons, contains_cons_eq, prefix_cons.
  destruct (ascii_dec "`" a); [congruence |]. by apply IH.
Qed.

(** A pattern that starts with a backtick is not found in a text that has
    no backtick. *)
Lemma replace_go_no_tick (old' new u v : string) :
  Py.contains "`" u = false →
  Py.replace_go (String "`" old') new 0 (u +:+ v)
  = u +:+ Py.replace_go (String "`" old') new 0 v.
Proof.
  induction u as [|a u IH]; [done |].
  intros [Ha Hu]%no_tick_cons. rewrite !str_app_cons, replace_go_eq, prefix_cons.
  destruct (ascii_dec "`" a); [congruence |]. by rewrite IH.
Qed.

(** Nothing is stripped before an end of three bytes or more that is
    not stripped itself. *)
Lemma rstrip_app_long (x y : string) :
  Py.rstrip y = y → (3 ≤ String.length y)%nat → Py.rstrip (x +:+ y) = x +:+ y.
Proof.
  intros Hy Hlen. induction x as [|a x IH]; [done |].
  rewrite !str_app_cons, rstrip_cons, IH.
  rewrite isspace_long; [done |]. simpl. rewrite str_length_app. lia.
Qed.

Lemma rstrip_app_blank (x y : string) :
  Py.rstrip y = EmptyString → Py.rstrip (x +:+ y) = Py.rstrip x.
Proof.
  intros Hy. induction x as [|a x IH]; [done |].
  rewrite str_app_cons, !rstrip_cons. by rewrite IH.
Qed.

Lemma rstrip_tail (a : ascii) (s : string) :
  Py.rstrip (String a s) = String a s → Py.rstrip s = s.
Proof.
  rewrite rstrip_cons. destruct (Py.isspace _); [done |]. by intros [= ?].
Qed.

Lemma rstrip_lstrip_go (k : nat) (r : string) :
  Py.rstrip r = r → Py.rstrip (Py.lstrip_go k r) = Py.lstrip_go k r.
Proof.
  revert k. induction r as [|a r IH]; intros k Hr.
  { by rewrite lstrip_go_nil. }
  pose proof (rstrip_tail _ _ Hr) as Hr'.
  rewrite lstrip_go_cons. destruct k as [|k]; [| by apply IH].
  destruct (Py.space_len (String a r)); [done | by apply IH].
Qed.

Lemma rstrip_lstrip (r : string) : Py.rstrip r = r → Py.rstrip (Py.lstrip r) = Py.lstrip r.
Proof. apply rstrip_lstrip_go. Qed.

Lemma rstrip_idemp (s : string) : Py.rstrip (Py.rstrip s) = Py.rstrip s.
Proof.
  induction s as [|a s IH]; [done |].
  rewrite rstrip_cons. destruct (Py.isspace _) eqn:Ha; [done |].
  by rewrite rstrip_cons, IH, Ha.
Qed.

Lemma lstrip_go_idemp (k : nat) (s : string) :
  Py.lstrip_go 0 (Py.lstrip_go k s) = Py.lstrip_go k s.
Proof.
  revert k. induction s as [|a s IH]; intros k.
  { by rewrite lstrip_go_nil. }
  rewrite lstrip_go_cons. destruct k as [|k]; [| apply IH].
  destruct (Py.space_len (String a s)) eqn:Ha; [| apply IH].
  by rewrite lstrip_go_cons, Ha.
Qed.

Lemma lstrip_idemp (s : string) : Py.lstrip (Py.lstrip s) = Py.lstrip s.
Proof. apply lstrip_go_idemp. Qed.

Lemma strip_idemp (s : string) : Py.strip (Py.strip s) = Py.strip s.
Proof.
  unfold Py.strip. rewrite rstrip_lstrip by apply rstrip_idemp. apply lstrip_idemp.
Qed.

Lemma strip_no_tick (t : string) :
  Py.contains "`" t = false → Py.contains "`" (Py.strip t) = false.
Proof.
  rewrite !contains_false. intros Hn Ho. by apply Hn, occurs_strip.
Qed.

Lemma replace_no_tick (old' new t : string) :
  Py.contains "`" t = false → Py.replace (String "`" old') new t = t.
Proof.
  intros Ht. unfold Py.replace.
  rewrite <- (str_app_nil_r t) at 1. rewrite replace_go_no_tick by done.
  by rewrite str_app_nil_r.
Qed.

(** The fence at the start and at the end of a response. *)
Lemma strip_newlines (t : string) : Py.strip (Py.nl +:+ t +:+ Py.nl) = Py.strip t.
Proof.
  unfold Py.strip. rewrite <- str_app_assoc, rstrip_app_blank by done.
  change (Py.nl +:+ t) with (String (ascii_of_nat 10) t).
  rewrite rstrip_cons. destruct (Py.rstrip t) as [|b r]; [done |].
  assert (Py.isspace (String (ascii_of_nat 10) (String b r)) = false) as -> by done.
  unfold Py.lstrip at 1. by rewrite lstrip_go_cons, space_len_nl.
Qed.

Lemma strip_fenced (pre u : string) :
  Py.strip (String "`" pre +:+ (u +:+ "```")) = String "`" pre +:+ (u +:+ "```").
Proof.
  unfold Py.strip.
  rewrite <- str_app_assoc, rstrip_app_long by (done || (simpl; lia)).
  rewrite str_app_assoc, str_app_cons.
  unfold Py.lstrip. by rewrite lstrip_go_cons, space_len_tick.
Qed.

(** X14: [_clean_llm_response] takes a response out of its fence: for a
    text without a backtick, the response [```json], line break, the text,
    line break, [```] is cleaned to the text without its leading and
    trailing whitespace, and so are the same response with the fence [```]
    alone and the bare text. *)
Theorem clean_unwraps_fenced_json (t : string) :
  Py.contains "`" t = false →
  _clean_llm_response ("```json" +:+ Py.nl +:+ t +:+ Py.nl +:+ "```") = Py.strip t
  ∧ _clean_llm_response ("```" +:+ Py.nl +:+ t +:+ Py.nl +:+ "```") = Py.strip t
  ∧ _clean_llm_response t = Py.strip t.
Proof.
  intros Ht.
  assert (Hmid : Py.contains "`" (Py.nl +:+ t +:+ Py.nl) = false)
    by (apply no_tick_app; [done | by apply no_tick_app]).
  assert (Hu : ∀ u, Py.contains "`" u = false →
            Py.strip (Py.replace "```" EmptyString
                        (Py.replace "```json" EmptyString (u +:+ "```")))
            = Py.strip u).
  { intros u Hu. unfold Py.replace.
    rewrite (replace_go_no_tick _ _ u) by done.
    change (Py.replace_go "```json" EmptyString 0 "```") with "```".
    rewrite (replace_go_no_tick _ _ u) by done.
    change (Py.replace_go "```" EmptyString 0 "```") with EmptyString.
    by rewrite str_app_nil_r. }
  unfold _clean_llm_response. split; [| split].
  - assert ("```json" +:+ Py.nl +:+ t +:+ Py.nl +:+ "```"
            = "```json" +:+ ((Py.nl +:+ t +:+ Py.nl) +:+ "```")) as ->
      by (by rewrite !str_app_assoc).
    rewrite strip_fenced.
    unfold Py.replace at 2. rewrite replace_go_prefix, str_app_nil_l.
    fold (Py.replace "```json" EmptyString ((Py.nl +:+ t +:+ Py.nl) +:+ "```")).
    rewrite Hu by done. apply strip_newlines.
  - assert ("```" +:+ Py.nl +:+ t +:+ Py.nl +:+ "```"
            = "```" +:+ ((Py.nl +:+ t +:+ Py.nl) +:+ "```")) as ->
      by (by rewrite !str_app_assoc).
    rewrite strip_fenced.
    assert (Py.replace "```json" EmptyString
              ("```" +:+ ((Py.nl +:+ t +:+ Py.nl) +:+ "```"))
            = "```" +:+ Py.replace "```json" EmptyString
                          ((Py.nl +:+ t +:+ Py.nl) +:+ "```")) as ->.
    { rewrite !str_app_assoc.
      change (Py.nl +:+ t +:+ Py.nl +:+ "```")
        with (String (ascii_of_nat 10) (t +:+ Py.nl +:+ "```")).
      reflexivity. }
    unfold Py.replace at 1. rewrite replace_go_prefix, str_app_nil_l.
    fold (Py.replace "```" EmptyString
            (Py.replace "```json" EmptyString ((Py.nl +:+ t +:+ Py.nl) +:+ "```"))).
    rewrite Hu by done. apply strip_newlines.
  - rewrite (replace_no_tick "``json" EmptyString (Py.strip t)) by (by apply strip_no_tick).
    rewrite replace_no_tick by (by apply strip_no_tick). apply strip_idemp.
Qed.

Lemma clean_unwraps_fenced_json_witness :
  _clean_llm_response ("```json" +:+ Py.nl +:+ "{ }" +:+ Py.nl +:+ "```") = Py.strip "{ }".
Proof.
  apply (clean_unwraps_fenced_json "{ }"). vm_compute. reflexivity.
Defined.

Lemma leading_ticks_cons (a : ascii) (s : string) :
  leading_ticks (String a s) = if Ascii.eqb a "`" then S (leading_ticks s) else 0.
Proof. reflexivity. Qed.

Lemma prefix_tick (old' : string) (a : ascii) (s : string) :
  String.prefix (String "`" old') (String a s)
  = Ascii.eqb a "`" && String.prefix old' s.
Proof.
  rewrite prefix_cons. destruct (ascii_dec "`" a) as [<-|Hne]; [done |].
  destruct (Ascii.eqb_spec a "`"); [congruence | done].
Qed.

Lemma prefix_fence_ticks (s : string) :
  String.prefix "```" s = true ↔ (3 ≤ leading_ticks s)%nat.
Proof.
  destruct s as [|a [|b [|c s]]]; try (cbn; split; [done | lia]).
  - rewrite prefix_tick, leading_ticks_cons. cbn [leading_ticks].
    destruct (Ascii.eqb a "`"); cbn; split; try done; lia.
  - rewrite !prefix_tick, !leading_ticks_cons. cbn [leading_ticks].
    destruct (Ascii.eqb a "`"), (Ascii.eqb b "`"); cbn; split; try done; lia.
  - rewrite !prefix_tick, prefix_nil, !leading_ticks_cons.
    destruct (Ascii.eqb a "`"), (Ascii.eqb b "`"), (Ascii.eqb c "`");
      cbn; split; try done; lia.
Qed.

(** Removing the fences leaves no fence: what is kept of a run of
    backticks is shorter than the run, and shorter than a fence. *)
Lemma replace_fence_spec (n : nat) (s : string) :
  (String.length s ≤ n)%nat →
  (leading_ticks (Py.replace_go "```" EmptyString 0 s) ≤ leading_ticks s)%nat
  ∧ Py.contains "```" (Py.replace_go "```" EmptyString 0 s) = false.
Proof.
  revert s. induction n as [|n IH]; intros s Hlen.
  { destruct s; [done | simpl in Hlen; lia]. }
  destruct s as [|a s]; [done |].
  rewrite replace_go_eq.
  destruct (String.prefix "```" (String a s)) eqn:Hp.
  - apply prefix_iff in Hp as [rest Hrest].
    pose proof (replace_go_prefix "`" "``" EmptyString rest) as Hr.
    rewrite <- Hrest, replace_go_eq in Hr.
    assert (String.prefix "```" (String a s) = true) as Hp'
      by (apply prefix_iff; by exists rest).
    rewrite Hp' in Hr. rewrite Hr, str_app_nil_l.
    assert (String.length rest ≤ n)%nat as Hn.
    { apply (f_equal String.length) in Hrest. rewrite str_length_app in Hrest.
      simpl in *. lia. }
    destruct (IH rest Hn) as [Hlead Hfree]. split; [| done].
    rewrite Hrest.
    change ("```" +:+ rest) with (String "`" (String "`" (String "`" rest))).
    rewrite !leading_ticks_cons. cbn. lia.
  - assert (String.length s ≤ n)%nat as Hn by (simpl in Hlen; lia).
    destruct (IH s Hn) as [Hlead Hfree].
    assert (Hle : (leading_ticks (String a (Py.replace_go "```" EmptyString 0 s))
                   ≤ leading_ticks (String a s))%nat).
    { rewrite !leading_ticks_cons. destruct (Ascii.eqb a "`"); lia. }
    split; [done |].
    rewrite contains_cons_eq, Hfree, orb_false_r.
    destruct (String.prefix "```" (String a (Py.replace_go "```" EmptyString 0 s)))
      eqn:Hp2; [| done].
    apply prefix_fence_ticks in Hp2.
    assert (3 ≤ leading_ticks (String a s))%nat as H3 by lia.
    apply prefix_fence_ticks in H3. congruence.
Qed.

(** X15: whatever the model returned, the cleaned response contains no
    fence [```] and has no whitespace at its start or at its end. *)
Theorem cleaned_response_has_no_fence (response_text : string) :
  Py.contains "```" (_clean_llm_response response_text) = false
  ∧ Py.strip (_clean_llm_response response_text) = _clean_llm_response response_text.
Proof.
  unfold _clean_llm_response. split; [| apply strip_idemp].
  apply contains_false. intros Ho%occurs_strip. revert Ho. apply contains_false.
  unfold Py.replace at 1. by eapply replace_fence_spec.
Qed.

(** ** More on the classifier *)

Section ClassifierFacts.
Variable L : Libs.
Variable json_loads : string → Outcome JSON.
Variable str_dict_keys : list string → string.
Variable not_iterable : JSON → string.

Local Abbreviation classify := (classify_ticket L json_loads str_dict_keys not_iterable).

(** [classify_ticket] on a ticket text that is not empty, step by step. *)
Lemma classify_cases (ticket_text : string) (w : World) :
  ticket_text ≠ EmptyString →
  classify ticket_text w =
  let w1 := logged (classify_call ticket_text) w in
  match generate_content L w1 "gemini-2.5-flash" (CLASSIFICATION_PROMPT_format ticket_text) with
  | Raises e => classify_except None e w1
  | Returns response =>
      match text response with
      | Raises e => classify_except (Some response) e w1
      | Returns t =>
          match json_loads (_clean_llm_response t) with
          | Raises e => classify_except (Some response) e w1
          | Returns classification =>
              match all_keys_in not_iterable required_keys classification with
              | Raises e => classify_except (Some response) e w1
              | Returns true => (Returns (Classification classification), w1)
              | Returns false =>
                  classify_except (Some response)
                    (missing_keys_error str_dict_keys classification) w1
              end
          end
      end
  end.
Proof.
  intros Hne. unfold classify_ticket.
  destruct ticket_text as [|c s]; [done |]. cbn [Py.truthy negb].
  cbv zeta. fold (classify_call (String c s)).
  fold (logged (classify_call (String c s)) w).
  destruct (generate_content L _ _ _) as [response|e]; [| done].
  unfold try_except, bind, lift, ret, raise.
  destruct (text response) as [t|e]; [| done].
  destruct (json_loads _) as [classification|e]; [| done].
  by destruct (all_keys_in not_iterable required_keys classification) as [[|]|e].
Qed.

Lemma classify_except_cases (response : option Response) (e : Exn) (w : World) :
  classify_except response e w =
  if bool_decide (exn_class e = "JSONDecodeError") then
    match response with
    | None =>
        (Returns (ClassifyError "Failed to decode JSON from LLM response." (Some "N/A")), w)
    | Some r =>
        match text r with
        | Returns t =>
            (Returns (ClassifyError "Failed to decode JSON from LLM response." (Some t)), w)
        | Raises e' => (Raises e', w)
        end
    end
  else (Returns (ClassifyError ("An unexpected error occurred: " +:+ exn_str e) None), w).
Proof.
  unfold classify_except. destruct (bool_decide _); [| done].
  unfold bind, lift, ret. destruct response as [r|]; [| done].
  by destruct (text r).
Qed.

Lemma classify_world (ticket_text : string) (w : World) :
  ticket_text ≠ EmptyString →
  (classify ticket_text w).2 = logged (classify_call ticket_text) w.
Proof.
  intros Hne. rewrite classify_cases by done. cbv zeta.
  destruct (generate_content L _ _ _) as [response|e];
    [| by rewrite classify_except_world].
  destruct (text response) as [t|e]; [| by rewrite classify_except_world].
  destruct (json_loads _) as [classification|e]; [| by rewrite classify_except_world].
  destruct (all_keys_in not_iterable required_keys classification) as [[|]|e];
    by rewrite ?classify_except_world.
Qed.

Lemma all_keys_in_object (keys : list string) (members : list (string * JSON)) :
  all_keys_in not_iterable keys (JObj members) = Returns true →
  ∀ key, key ∈ keys → key ∈ members.*1.
Proof.
  induction keys as [|k keys IH]; simpl; [by intros _ key ?%elem_of_nil |].
  destruct (bool_decide (k ∈ members.*1)) eqn:Hk; [| done].
  apply bool_decide_eq_true in Hk.
  intros H key [-> | Hkey]%elem_of_cons; [done | by apply IH].
Qed.

(** X16: a classification that [classify_ticket] returns is what
    [json.loads] made of the cleaned text of the model's response, and it
    has passed the check of the keys: when it is an object, [topic_tags],
    [sentiment] and [priority] are among its keys. *)
Theorem classification_has_required_keys (ticket_text : string) (w w' : World)
    (classification : JSON) :
  classify ticket_text w = (Returns (Classification classification), w') →
  ticket_text ≠ EmptyString
  ∧ (∃ response t,
       generate_content L (logged (classify_call ticket_text) w) "gemini-2.5-flash"
                        (CLASSIFICATION_PROMPT_format ticket_text) = Returns response
       ∧ text response = Returns t
       ∧ json_loads (_clean_llm_response t) = Returns classification)
  ∧ ∀ members, classification = JObj members →
      "topic_tags" ∈ members.*1 ∧ "sentiment" ∈ members.*1 ∧ "priority" ∈ members.*1.
Proof.
  intros H.
  assert (Hne : ticket_text ≠ EmptyString) by (by intros ->).
  split; [done |]. rewrite classify_cases in H by done. cbv zeta in H.
  assert (Hexc : ∀ r e w0 c w1,
            classify_except r e w0 ≠ (Returns (Classification c), w1)).
  { intros r e w0 c w1. rewrite classify_except_cases.
    destruct (bool_decide _); [| done].
    destruct r as [r|]; [| done]. by destruct (text r). }
  destruct (generate_content L _ _ _) as [response|e]; [| by apply Hexc in H].
  destruct (text response) as [t|e] eqn:Ht; [| by apply Hexc in H].
  destruct (json_loads _) as [c|e] eqn:Hj; [| by apply Hexc in H].
  destruct (all_keys_in not_iterable required_keys c) as [[|]|e] eqn:Hk;
    [| by apply Hexc in H | by apply Hexc in H].
  injection H as -> <-.
  split; [by exists response, t |].
  intros members ->.
  pose proof (all_keys_in_object _ _ Hk) as Hall.
  repeat split; apply Hall; unfold required_keys; set_solver.
Qed.


(** X18: when the cleaned text of the response is not JSON, the result is
    the error [Failed to decode JSON from LLM response.] together with the
    text of the response as the model gave it, not the cleaned one; any
    other exception of the parser gives the error that starts [An
    unexpected error occurred: ]. *)
Theorem decode_failure_keeps_raw_response (ticket_text : string) (w : World)
    (response : Response) (t : string) (e : Exn) :
  ticket_text ≠ EmptyString →
  generate_content L (logged (classify_call ticket_text) w) "gemini-2.5-flash"
                   (CLASSIFICATION_PROMPT_format ticket_text) = Returns response →
  text response = Returns t →
  json_loads (_clean_llm_response t) = Raises e →
  classify ticket_text w
  = (Returns (if bool_decide (exn_class e = "JSONDecodeError")
              then ClassifyError "Failed to decode JSON from LLM response." (Some t)
              else ClassifyError ("An unexpected error occurred: " +:+ exn_str e) None),
     logged (classify_call ticket_text) w).
Proof.
  intros Hne Hg Ht Hj. rewrite classify_cases by done. cbv zeta.
  rewrite Hg, Ht, Hj, classify_except_cases, Ht. by destruct (bool_decide _).
Qed.

(** X19: [classify_ticket] calls the model exactly once for a ticket text
    that is not empty, whatever comes of the call, and not at all for the
    empty text; nothing else in the world changes. *)
Theorem classify_calls_model_once (ticket_text : string) (w : World) :
  (classify ticket_text w).2
  = if Py.truthy ticket_text then logged (classify_call ticket_text) w else w.
Proof.
  destruct ticket_text as [|c s]; [done |].
  by apply classify_world.
Qed.

(** X20: the check of the keys is a membership test on whatever
    [json.loads] returns, so a JSON string passes it when the three key
    names occur in it: [classify_ticket] then returns the string as the
    classification. *)
Theorem string_passes_key_check (ticket_text : string) (w : World)
    (response : Response) (t s : string) :
  ticket_text ≠ EmptyString →
  generate_content L (logged (classify_call ticket_text) w) "gemini-2.5-flash"
                   (CLASSIFICATION_PROMPT_format ticket_text) = Returns response →
  text response = Returns t →
  json_loads (_clean_llm_response t) = Returns (JStr s) →
  Py.contains "topic_tags" s = true →
  Py.contains "sentiment" s = true →
  Py.contains "priority" s = true →
  classify ticket_text w
  = (Returns (Classification (JStr s)), logged (classify_call ticket_text) w).
Proof.
  intros Hne Hg Ht Hj H1 H2 H3. rewrite classify_cases by done. cbv zeta.
  rewrite Hg, Ht, Hj. cbn [all_keys_in required_keys key_in].
  by rewrite H1, H2, H3.
Qed.
End ClassifierFacts.

Lemma classification_has_required_keys_witness :
  "How do I enable SSO?" ≠ EmptyString
  ∧ (∃ response t,
       generate_content
         (answering_libs ("```json" +:+ Py.nl +:+ sso_classification_text +:+ Py.nl +:+ "```"))
         (logged (classify_call "How do I enable SSO?") empty_world) "gemini-2.5-flash"
         (CLASSIFICATION_PROMPT_format "How do I enable SSO?") = Returns response
       ∧ text response = Returns t
       ∧ sample_json_loads (_clean_llm_response t) = Returns sso_classification)
  ∧ ∀ members, sso_classification = JObj members →
      "topic_tags" ∈ members.*1 ∧ "sentiment" ∈ members.*1 ∧ "priority" ∈ members.*1.
Proof.
  eapply (classification_has_required_keys
            (answering_libs ("```json" +:+ Py.nl +:+ sso_classification_text +:+ Py.nl +:+ "```"))
            sample_json_loads sample_str_dict_keys sample_not_iterable
            "How do I enable SSO?" empty_world).
  vm_compute. reflexivity.
Defined.


Lemma decode_failure_keeps_raw_response_witness :
  classify_ticket (answering_libs "  I cannot classify this.  ")
    sample_json_loads sample_str_dict_keys sample_not_iterable
    "How do I enable SSO?" empty_world
  = (Returns (if bool_decide
                   (exn_class (mkExn "JSONDecodeError" "Expecting value: line 1 column 1 (char 0)")
                    = "JSONDecodeError")
              then ClassifyError "Failed to decode JSON from LLM response."
                                 (Some "  I cannot classify this.  ")
              else ClassifyError
                     ("An unexpected error occurred: "
                      +:+ exn_str (mkExn "JSONDecodeError"
                                         "Expecting value: line 1 column 1 (char 0)"))
                     None),
     logged (classify_call "How do I enable SSO?") empty_world).
Proof.
  apply (decode_failure_keeps_raw_response
           (answering_libs "  I cannot classify this.  ")
           sample_json_loads sample_str_dict_keys sample_not_iterable
           "How do I enable SSO?" empty_world
           (mkResponse (Returns "  I cannot classify this.  "))).
  - discriminate.
  - reflexivity.
  - reflexivity.
  - vm_compute. reflexivity.
Defined.

Lemma string_passes_key_check_witness :
  classify_ticket (answering_libs names_text)
    sample_json_loads sample_str_dict_keys sample_not_iterable
    "How do I enable SSO?" empty_world
  = (Returns (Classification (JStr "topic_tags sentiment priority")),
     logged (classify_call "How do I enable SSO?") empty_world).
Proof.
  apply (string_passes_key_check
           (answering_libs names_text)
           sample_json_loads sample_str_dict_keys sample_not_iterable
           "How do I enable SSO?" empty_world
           (mkResponse (Returns names_text)) names_text).
  - discriminate.
  - reflexivity.
  - reflexivity.
  - vm_compute. reflexivity.
  - vm_compute. reflexivity.
  - vm_compute. reflexivity.
  - vm_compute. reflexivity.
Defined.

(** ** The bulk classification loop *)

Section BulkFacts.
Variable L : Libs.
Variable json_loads : string → Outcome JSON.
Variable str_dict_keys : list string → string.
Variable not_iterable : JSON → string.

End BulkFacts.


(** ** The call of the pipeline from the agent tab *)

(** X22: the block around the pipeline in the agent tab never raises:
    whatever the construction of the pipeline and [get_rag_answer] do, it
    ends with a result.  When the session holds a pipeline, that pipeline
    is used and kept, and the only calls are those of [get_rag_answer] for
    the stripped input followed by the hint; when the session holds none
    and still holds none afterwards, the result is an error that starts
    [RAG pipeline error: ]. *)
Theorem agent_block_never_raises (L : Libs) (VECTOR_STORE_PATH : string)
    (session : option RAGPipeline) (user_input : string) (w : World) :
  ∃ rag_result session' w',
    agent_rag_result L VECTOR_STORE_PATH session user_input w
    = (Returns (rag_result, session'), w')
    ∧ (∀ rag, session = Some rag →
         session' = Some rag
         ∧ w' = (get_rag_answer L rag (Py.strip user_input +:+ RAG_HINT) w).2)
    ∧ (session = None → session' = None →
         ∃ detail, rag_result = RAGError ("RAG pipeline error: " +:+ detail)).
Proof.
  assert (Hask : ∀ rag w0,
            ∃ rag_result,
              try_except
                (let* rag_result := agent_ask L rag user_input in
                 ret (rag_result, Some rag))
                (λ e, ret (RAGError ("RAG pipeline error: " +:+ exn_str e), Some rag)) w0
              = (Returns (rag_result, Some rag),
                 (get_rag_answer L rag (Py.strip user_input +:+ RAG_HINT) w0).2)).
  { intros rag w0. unfold try_except, bind, ret, agent_ask.
    destruct (get_rag_answer L rag _ w0) as [[r|e] w1]; by eexists. }
  unfold agent_rag_result. destruct session as [rag|].
  - destruct (Hask rag w) as [r Hr]. eexists r, (Some rag), _.
    split; [exact Hr |]. split; [by intros ? [= <-] | done].
  - unfold try_except at 1. unfold bind at 1.
    destruct (RAGPipeline_init L VECTOR_STORE_PATH w) as [[rag|e] w1].
    + destruct (Hask rag w1) as [r Hr]. rewrite Hr.
      eexists r, (Some rag), _. split; [done |]. split; [done | done].
    + eexists _, None, _. split; [done |]. split; [done |]. by eauto.
Qed.

(** ** Keywords in an answer *)

Lemma existsb_fmap {A B} (f : B → bool) (g : A → B) (l : list A) :
  existsb f (g <$> l) = existsb (λ x, f (g x)) l.
Proof.
  induction l as [|x l IH]; [done |].
  rewrite fmap_cons. cbn [existsb]. by rewrite IH.
Qed.

(** X23: [contains_any] ignores the case of the text and of the keywords;
    an empty list of keywords matches no text, and a list that holds the
    empty string matches every text. *)
Theorem contains_any_ignores_case (text : string) (keywords : list string) :
  contains_any (Py.lower text) keywords = contains_any text keywords
  ∧ contains_any text (Py.lower <$> keywords) = contains_any text keywords
  ∧ contains_any text [] = false
  ∧ (EmptyString ∈ keywords → contains_any text keywords = true).
Proof.
  unfold contains_any. repeat split.
  - by rewrite lower_idemp.
  - rewrite existsb_fmap. induction keywords as [|k keywords IH]; [done |].
    cbn [existsb]. by rewrite lower_idemp, IH.
  - intros Hin. apply existsb_exists. exists EmptyString. split.
    + by apply list_elem_of_In.
    + apply contains_iff. exists EmptyString, (Py.lower text). done.
Qed.

Lemma contains_any_ignores_case_witness :
  contains_any "Vector store is not available." ["sso"; EmptyString] = true.
Proof.
  apply (contains_any_ignores_case "Vector store is not available." ["sso"; EmptyString]).
  set_solver.
Defined.
